(** * tasty-cooking: the tag auditor and the header rewriter

    A shallow embedding of [analyze_recipe_tags.py] and [update_headers.py].

    Text is [string]: a sequence of characters, each standing for the code
    point of its number, so the texts modelled are those whose code points
    are below 256 (the Latin-1 range).  On that range [lower] and [strip]
    are Python's [str.lower] and [str.strip]; a page with a character above
    it is outside the model.

    Both sources write a backslash before each exclamation mark.  Inside a
    string literal Python keeps that backslash, and so does the model (the
    new header of the rewriter, its closing line).  Outside a string it is
    not Python: line 57 of the auditor, [f \!= "index.html"], does not parse
    as it stands.  [main_with] takes the condition of that line as a
    parameter, and [main] reads it as [f != "index.html"]; what is proved of
    the auditor's functions and of its loop does not depend on that line.

    Two library entry points are not modelled but taken as parameters of the
    auditor: BeautifulSoup's HTML parser (text to tree) and [re.search] on
    the pattern the auditor builds from a file name.  The traversal of the
    parsed tree, the fixed pattern of the header rewriter and [re.sub] on it
    are modelled in full. *)

From Stdlib Require Import Ascii String List Arith Lia Bool.
From stdpp Require Import base option list strings gmap pretty.

Local Open Scope list_scope.

(** ** Python string builtins *)

Module Py.

(** The characters that cannot be written inside a literal here. *)
Definition dquote : string := String "034"%char "".
Definition nl : string := String "010"%char "".

(** [str.lower] on one character below 256: [A-Z], and the capital letters
    of Latin-1, U+00C0 to U+00DE without the multiplication sign U+00D7. *)
Definition lower_char (c : ascii) : ascii :=
  let n := nat_of_ascii c in
  if ((65 <=? n) && (n <=? 90))
     || ((192 <=? n) && (n <=? 222) && negb (n =? 215))
  then ascii_of_nat (n + 32) else c.

Fixpoint lower (s : string) : string :=
  match s with
  | "" => ""
  | String c s' => String (lower_char c) (lower s')
  end.

(** [s.startswith(p)] and [s.endswith(p)]. *)
Fixpoint startswith (p s : string) : bool :=
  match p, s with
  | "", _ => true
  | String a p', String b s' => if decide (a = b) then startswith p' s' else false
  | String _ _, "" => false
  end.

Fixpoint endswith (suf s : string) : bool :=
  if decide (s = suf) then true
  else match s with
       | "" => false
       | String _ s' => endswith suf s'
       end.

(** [sub in s]. *)
Fixpoint contains (sub s : string) : bool :=
  startswith sub s ||
  match s with
  | "" => false
  | String _ s' => contains sub s'
  end.

(** [s.replace(old, new)]: every non-overlapping occurrence of [old],
    scanning from the left.  [skip] counts the characters of an occurrence
    that are still to be dropped. *)
Fixpoint replace_from (old new : string) (skip : nat) (s : string) : string :=
  match s with
  | "" => ""
  | String c s' =>
      match skip with
      | S k => replace_from old new k s'
      | O =>
          if startswith old s
          then new +:+ replace_from old new (String.length old - 1) s'
          else String c (replace_from old new 0 s')
      end
  end.

(** With an empty [old] Python puts [new] before every character and at
    the end. *)
Fixpoint intersperse (new s : string) : string :=
  match s with
  | "" => new
  | String c s' => new +:+ String c (intersperse new s')
  end.

Definition replace (old new s : string) : string :=
  match old with
  | "" => intersperse new s
  | _ => replace_from old new 0 s
  end.

(** [sep.join(l)]. *)
Definition join (sep : string) (l : list string) : string := String.concat sep l.

(** [str.isspace] on one character below 256: TAB, LF, VT, FF, CR, the
    four separators FS, GS, RS, US, the space, NEL (U+0085) and the no-break
    space (U+00A0). *)
Definition isspace (c : ascii) : bool :=
  let n := nat_of_ascii c in
  ((9 <=? n) && (n <=? 13)) || ((28 <=? n) && (n <=? 31)) || (n =? 32)
  || (n =? 133) || (n =? 160).

Fixpoint lstrip (s : string) : string :=
  match s with
  | "" => ""
  | String c s' => if isspace c then lstrip s' else s
  end.

Fixpoint rstrip (s : string) : string :=
  match s with
  | "" => ""
  | String c s' =>
      match rstrip s' with
      | "" => if isspace c then "" else String c ""
      | r => String c r
      end
  end.

Definition strip (s : string) : string := rstrip (lstrip s).

(** [s.find(sub)]: the index of the first occurrence. *)
Fixpoint find (sub s : string) : option nat :=
  if startswith sub s then Some 0
  else match s with
       | "" => None
       | String _ s' => S <$> find sub s'
       end.

(** Slices [s[:n]] and [s[n:]]. *)
Fixpoint take (n : nat) (s : string) : string :=
  match n, s with
  | S k, String c s' => String c (take k s')
  | _, _ => ""
  end.

Fixpoint drop (n : nat) (s : string) : string :=
  match n, s with
  | S k, String _ s' => drop k s'
  | _, _ => s
  end.

(** How an f-string prints a value that may be [None]. *)
Definition fmt_option (o : option string) : string :=
  match o with
  | Some s => s
  | None => "None"
  end.

End Py.

(** ** The parsed page: BeautifulSoup's tree and the queries used on it *)

Module Bs4.

(** The classes of text node [html.parser] builds.  [Comment], [CData] and
    the rest are subclasses of [NavigableString]. *)
Inductive string_kind := Plain | Comment | CData | OtherString.

(** A [Tag] carries its name, the value of [attrs.get('class')] (absent, or
    the white-space separated tokens) and its children.  The document
    itself is a [Tag] named [[document]]. *)
#[warnings="-register-all"]
Inductive node :=
| Tag (name : string) (class_ : option (list string)) (contents : list node)
| NavigableString (kind : string_kind) (text : string).

(** An element of a tree is referred to by the child indices that lead to
    it from the root. *)
Definition element := list nat.

Definition contents_of (n : node) : list node :=
  match n with
  | Tag _ _ cs => cs
  | NavigableString _ _ => []
  end.

Fixpoint get (n : node) (p : element) : option node :=
  match p with
  | [] => Some n
  | i :: p' =>
      match contents_of n !! i with
      | Some c => get c p'
      | None => None
      end
  end.

(** [.descendants]: every node below [n], in document order. *)
Fixpoint descendants (n : node) : list (element * node) :=
  match n with
  | Tag _ _ cs =>
      (fix children (i : nat) (l : list node) : list (element * node) :=
         match l with
         | [] => []
         | c :: rest =>
             ([i], c)
               :: map (fun d => (i :: fst d, snd d)) (descendants c)
               ++ children (S i) rest
         end) 0 cs
  | NavigableString _ _ => []
  end.

(** [soup.find_all(string=f)]: the text nodes of any kind whose text
    satisfies [f]. *)
Definition find_all_string (soup : node) (f : string -> bool) : list element :=
  omap (fun d =>
          match snd d with
          | NavigableString _ s => if f s then Some (fst d) else None
          | Tag _ _ _ => None
          end) (descendants soup).

(** [e.find_parent()]: every node below the root has a parent, reached by
    the path without its last index. *)
Definition find_parent (e : element) : element := removelast e.

Definition is_tag_named (name : string) (n : node) : bool :=
  match n with
  | Tag name' _ _ => bool_decide (name' = name)
  | NavigableString _ _ => false
  end.

(** [e.find_next_sibling(name)]: the first later sibling of [e] that is a
    tag called [name]; the root has no sibling. *)
Definition find_next_sibling (soup : node) (e : element) (name : string)
  : option node :=
  match e with
  | [] => None
  | _ =>
      match get soup (removelast e) with
      | Some parent =>
          List.find (is_tag_named name)
            (List.skipn (S (List.last e 0)) (contents_of parent))
      | None => None
      end
  end.

(** How a function given as [class_=f] is matched against the class
    attribute: on each token, then on the tokens joined by spaces; on
    [None] when the attribute is absent. *)
Definition matches_class (f : option string -> bool) (cls : option (list string)) : bool :=
  match cls with
  | None => f None
  | Some tokens =>
      existsb (fun t => f (Some t)) tokens || f (Some (Py.join " " tokens))
  end.

(** [n.find_all(name, class_=f)]: the tags below [n] called [name] whose
    class attribute matches. *)
Definition find_all_tag (n : node) (name : string) (f : option string -> bool)
  : list node :=
  omap (fun d =>
          match snd d with
          | Tag name' cls _ =>
              if bool_decide (name' = name) && matches_class f cls
              then Some (snd d) else None
          | NavigableString _ _ => None
          end) (descendants n).

(** [n.get_text()]: the plain and CDATA text below [n], concatenated;
    comments and the other kinds are left out. *)
Definition get_text (n : node) : string :=
  Py.join ""
    (omap (fun d =>
             match snd d with
             | NavigableString Plain s | NavigableString CData s => Some s
             | _ => None
             end) (descendants n)).

End Bs4.

(** ** Regular expressions: the fragment of [re] the scripts' patterns use *)

Module Re.

Inductive regex :=
| Eps                                   (* the empty pattern *)
| Lit (c : ascii)                       (* a literal character *)
| Any                                   (* [.] under DOTALL *)
| NoneOf (cs : list ascii)              (* [[^...]]; [.] without DOTALL *)
| Seq (r1 r2 : regex)
| Star (lazy : bool) (r : regex)        (* [r*?] when [lazy], else [r*] *)
| Group (n : nat) (r : regex).          (* the [n]-th capturing group *)

(** The pattern of a literal text, followed by [tail]. *)
Fixpoint lits (text : string) (tail : regex) : regex :=
  match text with
  | "" => tail
  | String c text' => Seq (Lit c) (lits text' tail)
  end.

(** [opening], then as little as possible of anything, then [closing]. *)
Definition span (opening closing : string) : regex :=
  lits opening (Seq (Star true Any) (lits closing Eps)).

(** The text each group captured, the latest capture first. *)
Definition captures := list (nat * string).

(** The loop of a star: [step] matches the starred item once.  A lazy star
    first tries to stop, a greedy one first tries to go on; an iteration
    that consumes nothing is not repeated.  [fuel] bounds the number of
    iterations by the length of the text. *)
Fixpoint star_loop {R} (lazy : bool)
    (step : string -> captures -> (string -> captures -> option R) -> option R)
    (k : string -> captures -> option R)
    (fuel : nat) (s : string) (cs : captures) : option R :=
  let again :=
    match fuel with
    | O => None
    | S fuel' =>
        step s cs
          (fun s' cs' =>
             if String.length s' <? String.length s
             then star_loop lazy step k fuel' s' cs' else None)
    end in
  if lazy
  then match k s cs with Some x => Some x | None => again end
  else match again with Some x => Some x | None => k s cs end.

(** A backtracking matcher in continuation style: [matcher r s cs k] matches
    [r] at the start of [s] and hands what is left of [s] to [k]; when [k]
    fails the next way of matching [r] is tried, in the order [re] tries
    them. *)
Fixpoint matcher {R} (r : regex) (s : string) (cs : captures)
    (k : string -> captures -> option R) {struct r} : option R :=
  match r with
  | Eps => k s cs
  | Lit c =>
      match s with
      | String a s' => if decide (a = c) then k s' cs else None
      | "" => None
      end
  | Any =>
      match s with
      | String _ s' => k s' cs
      | "" => None
      end
  | NoneOf l =>
      match s with
      | String a s' => if bool_decide (a ∈ l) then None else k s' cs
      | "" => None
      end
  | Seq r1 r2 => matcher r1 s cs (fun s' cs' => matcher r2 s' cs' k)
  | Star lazy r1 => star_loop lazy (matcher r1) k (String.length s) s cs
  | Group n r1 =>
      matcher r1 s cs
        (fun s' cs' =>
           k s' ((n, Py.take (String.length s - String.length s') s) :: cs'))
  end.

(** A match of [r] at the start of [s]: what is left of [s] and the
    captures. *)
Definition match_at (r : regex) (s : string) : option (string * captures) :=
  matcher r s [] (fun s' cs => Some (s', cs)).

(** [re.search]: the leftmost match; [i] counts the characters skipped. *)
Fixpoint search_from (r : regex) (i : nat) (s : string)
  : option (nat * string * captures) :=
  match match_at r s with
  | Some (rest, cs) => Some (i, rest, cs)
  | None =>
      match s with
      | "" => None
      | String _ s' => search_from r (S i) s'
      end
  end.

Definition search (r : regex) (s : string) : option (nat * string * captures) :=
  search_from r 0 s.

(** What the auditor uses of a match object: [group(1)], which is [None]
    when the group took no part in the match. *)
Record match_object := { group1 : option string }.

Definition match_object_of (cs : captures) : match_object :=
  {| group1 := snd <$> List.find (fun c => fst c =? 1) cs |}.

(** The replacement text that [re.sub] makes of a replacement string
    without group references: two backslashes stand for one, a backslash
    before a character that is neither a letter nor a digit is left alone
    with that character.  A backslash before a letter or a digit (a known
    escape, a group reference or an error) and a backslash at the end are
    refused. *)
Definition is_alnum (c : ascii) : bool :=
  let n := nat_of_ascii c in
  ((48 <=? n) && (n <=? 57)) || ((65 <=? n) && (n <=? 90)) || ((97 <=? n) && (n <=? 122)).

Fixpoint template (repl : string) : option string :=
  match repl with
  | "" => Some ""
  | String c rest =>
      if decide (c = "\"%char) then
        match rest with
        | "" => None
        | String d rest' =>
            if decide (d = "\"%char) then String "\" <$> template rest'
            else if is_alnum d then None
            else (fun t => String "\" (String d t)) <$> template rest'
        end
      else String c <$> template rest
  end.

(** [re.sub] on the replacement text [repl]: every non-overlapping match,
    from the left, becomes [repl].  [skip] counts
    the characters of the last match still to be passed.  (A pattern that
    can match the empty string is treated as in Python 3.7 only at the
    first such match; the rewriter's pattern never matches it.) *)
Fixpoint sub_from (r : regex) (repl : string) (skip : nat) (s : string)
    {struct s} : string :=
  match skip, s with
  | S k, String _ s' => sub_from r repl k s'
  | S _, "" => ""
  | O, _ =>
      match match_at r s, s with
      | Some _, "" => repl
      | Some (rest, _), String c s' =>
          match String.length s - String.length rest with
          | O => repl +:+ String c (sub_from r repl 0 s')
          | S k => repl +:+ sub_from r repl k s'
          end
      | None, "" => ""
      | None, String c s' => String c (sub_from r repl 0 s')
      end
  end.

(** *** Pattern syntax *)

(** The characters with a meaning of their own in a pattern. *)
Definition special (c : ascii) : bool :=
  bool_decide (c ∈ list_ascii_of_string ".^$*+?{}[]\|()").

(** The members of a set, after [[^]: plain characters up to the closing
    bracket. *)
Fixpoint parse_set (s : string) (acc : list ascii) : option (list ascii * string) :=
  match s with
  | "" => None
  | String c s' =>
      if decide (c = "]"%char)
      then match acc with [] => None | _ => Some (rev acc, s') end
      else if bool_decide (c ∈ list_ascii_of_string "\-[") then None
      else parse_set s' (c :: acc)
  end.

(** A star, lazy or greedy, after an item. *)
Definition parse_star (item : regex) (s : string) : regex * string :=
  match s with
  | String "*" (String "?" s') => (Star true item, s')
  | String "*" s' => (Star false item, s')
  | _ => (item, s)
  end.

(** A sequence of items up to the end of the pattern or a closing
    parenthesis; [n] groups have been opened so far. *)
Fixpoint parse_seq (fuel : nat) (dotall : bool) (s : string) (n : nat)
  : option (regex * string * nat) :=
  match fuel with
  | O => None
  | S fuel' =>
      match s with
      | "" => Some (Eps, s, n)
      | String c s' =>
          if decide (c = ")"%char) then Some (Eps, s, n)
          else
            let item :=
              if decide (c = "("%char) then
                match parse_seq fuel' dotall s' (S n) with
                | Some (r, String ")" s'', n') =>
                    if Py.startswith "?" s' then None
                    else Some (Group (S n) r, s'', n')
                | _ => None
                end
              else if decide (c = "["%char) then
                match s' with
                | String "^" s'' =>
                    match parse_set s'' [] with
                    | Some (l, rest) => Some (NoneOf l, rest, n)
                    | None => None
                    end
                | _ => None
                end
              else if decide (c = "."%char) then
                Some (if dotall then Any else NoneOf ["010"%char], s', n)
              else if special c then None
              else Some (Lit c, s', n) in
            match item with
            | Some (r, rest, n') =>
                let '(r', rest') := parse_star r rest in
                match parse_seq fuel' dotall rest' n' with
                | Some (tail, rest'', n'') => Some (Seq r' tail, rest'', n'')
                | None => None
                end
            | None => None
            end
      end
  end.

(** [re.compile(pattern, flags)] on the fragment: literals, [.], negated
    sets of plain characters, [*], [*?] and capturing groups.  Every other
    pattern is refused, whether Python compiles it or not. *)
Definition compile (dotall : bool) (pattern : string) : option regex :=
  match parse_seq (S (String.length pattern)) dotall pattern 0 with
  | Some (r, "", _) => Some r
  | _ => None
  end.

End Re.

(** ** Files, standard output and exceptions *)

Module Sys.

(** An exception is represented by its message. *)
Definition exn := string.

Inductive result (A : Type) :=
| Ok (a : A)
| Raise (e : exn).
Arguments Ok {A} a.
Arguments Raise {A} e.

(** What a path holds: the text that [open(..., 'r')] and [read()] return
    (the file as Python sees it, decoded and with its line ends
    translated), or something whose opening or reading raises (a directory,
    a file without permission, bytes that do not decode).  Writing a text
    back stores that text. *)
Inductive file :=
| Text (content : string)
| Unreadable (why : exn).

Record world := World {
  fs : gmap string file;
  stdout : list string
}.

(** A computation reads and changes the world and returns or raises. *)
Definition M (A : Type) : Type := world -> world * result A.

Definition ret {A} (a : A) : M A := fun w => (w, Ok a).

Definition bind {A B} (m : M A) (k : A -> M B) : M B :=
  fun w =>
    match m w with
    | (w', Ok a) => k a w'
    | (w', Raise e) => (w', Raise e)
    end.

(** [try: m except Exception as e: h e]. *)
Definition try_except {A} (m : M A) (h : exn -> M A) : M A :=
  fun w =>
    match m w with
    | (w', Ok a) => (w', Ok a)
    | (w', Raise e) => h e w'
    end.

(** A pure call that may raise. *)
Definition lift {A} (r : result A) : M A := fun w => (w, r).

Definition no_such_file (path : string) : exn :=
  "[Errno 2] No such file or directory: '" +:+ path +:+ "'".

(** [with open(path, 'r') as f: f.read()]. *)
Definition read_text (path : string) : M string :=
  fun w =>
    match fs w !! path with
    | Some (Text s) => (w, Ok s)
    | Some (Unreadable e) => (w, Raise e)
    | None => (w, Raise (no_such_file path))
    end.

(** [open(path, 'w')]: creates the file or empties it. *)
Definition open_w (path : string) : M unit :=
  fun w =>
    match fs w !! path with
    | Some (Unreadable e) => (w, Raise e)
    | _ => (World (<[path := Text ""]> (fs w)) (stdout w), Ok tt)
    end.

(** [f.write(s)] on a file opened for writing: appends. *)
Definition written (path s : string) (w : world) : world :=
  let old := match fs w !! path with Some (Text t) => t | _ => "" end in
  World (<[path := Text (old +:+ s)]> (fs w)) (stdout w).

Definition write (path s : string) : M unit :=
  fun w => (written path s w, Ok tt).

(** [print(line)]. *)
Definition printed (line : string) (w : world) : world :=
  World (fs w) (stdout w ++ [line]).

Definition print (line : string) : M unit :=
  fun w => (printed line w, Ok tt).

(** [glob.glob(dir + '*.html')]: the paths directly in [dir] whose name
    ends in [.html] and does not start with a dot, in the order the
    directory lists them.  [dir] is empty for the working directory and
    ends in a slash otherwise. *)
Definition glob_matches (dir path : string) : bool :=
  Py.startswith dir path &&
  let name := Py.drop (String.length dir) path in
  negb (Py.contains "/" name) && Py.endswith ".html" name
  && negb (Py.startswith "." name).

Definition glob_html (dir : string) : M (list string) :=
  fun w => (w, Ok (List.filter (glob_matches dir) (fst <$> map_to_list (fs w)))).

(** A computation that leaves what [path] holds as it was, however it
    ends. *)
Definition keeps {A} (path : string) (m : M A) : Prop :=
    forall w w' r, m w = (w', r) -> fs w' !! path = fs w !! path.

  (** [for x in l: s = body x s]. *)
Fixpoint for_each {A S} (l : list A) (body : A -> S -> M S) (s : S) : M S :=
  match l with
  | [] => ret s
  | x :: rest => bind (body x s) (for_each rest body)
  end.

End Sys.

Declare Scope py_scope.
Delimit Scope py_scope with py.
Notation "x <- m ;; k" := (Sys.bind m (fun x => k))
  (at level 100, m at next level, right associativity) : py_scope.
Notation "m ;; k" := (Sys.bind m (fun _ => k))
  (at level 100, right associativity) : py_scope.

(** ** The tag auditor *)

Module AnalyzeRecipeTags.
Import Sys Bs4.
Local Open Scope py_scope.

Inductive status := MATCH | MISMATCH | ERROR.

Definition status_str (st : status) : string :=
  match st with
  | MATCH => "MATCH"
  | MISMATCH => "MISMATCH"
  | ERROR => "ERROR"
  end.

Record counters := Counters {
  mismatches : nat;
  matches : nat;
  errors : nat
}.

Definition report_path : string := "tag_analysis_report.txt".

(** Line 18: the predicate given to [find_all(string=...)]. *)
Definition is_tags_marker (text : string) : bool := Py.contains "Tags Section" text.

(** Line 28: the predicate given as [class_=...]; [c and ...] is false on
    [None] and on the empty string. *)
Definition is_tag_class (c : option string) : bool :=
  match c with
  | None => false
  | Some c => negb (bool_decide (c = "")) && Py.contains "inline-flex" c
  end.

(** Lines 17-21: the loop over the marker strings, left at the first one
    whose parent has a later sibling [div]. *)
Fixpoint find_tags_section (soup : node) (comments : list element) : option node :=
  match comments with
  | [] => None
  | comment :: rest =>
      match find_next_sibling soup (find_parent comment) "div" with
      | Some tags_section => Some tags_section
      | None => find_tags_section soup rest
      end
  end.

(** Lines 27-31: the stripped, non-empty texts of the matching spans. *)
Definition collect_tags (tags_section : node) : list string :=
  List.filter (fun tag_text => negb (bool_decide (tag_text = "")))
    (map (fun span => Py.strip (get_text span))
         (find_all_tag tags_section "span" is_tag_class)).

(** Line 78: the [data-tags] value computed from the tags of a page. *)
Definition formatted_data_tags (recipe_tags : list string) : string :=
  Py.join " " (map (fun tag => Py.replace " " "-" (Py.lower tag)) recipe_tags).

(** Line 40: the pattern built from the recipe name. *)
Definition index_pattern (recipe_name : string) : string :=
  "href=" +:+ Py.dquote +:+ recipe_name +:+ Py.dquote
    +:+ "[^>]*data-tags=" +:+ Py.dquote +:+ "([^" +:+ Py.dquote +:+ "]*)" +:+ Py.dquote.

(** Line 35: what the handler prints. *)
Definition error_line (file_path : string) (e : exn) : string :=
  "Error processing " +:+ file_path +:+ ": " +:+ e.

Section Libraries.

(** [BeautifulSoup(content, 'html.parser')]. *)
Variable BeautifulSoup : string -> result node.

(** [re.search(pattern, string)]: raises when the pattern does not
    compile, else returns [None] or a match object. *)
Variable re_search : string -> string -> result (option Re.match_object).

(** The body of the [try] of [extract_tags_from_recipe_page]. *)
Definition extract_tags_body (file_path : string) : M (option (list string)) :=
  content <- read_text file_path ;;
  soup <- lift (BeautifulSoup content) ;;
  match find_tags_section soup (find_all_string soup is_tags_marker) with
  | None => ret None
  | Some tags_section => ret (Some (collect_tags tags_section))
  end.

Definition extract_tags_from_recipe_page (file_path : string)
  : M (option (list string)) :=
  try_except (extract_tags_body file_path)
    (fun e => print (error_line file_path e) ;; ret None).

Definition extract_current_tags_from_index (index_content recipe_name : string)
  : result (option string) :=
  match re_search (index_pattern recipe_name) index_content with
  | Raise e => Raise e
  | Ok (Some m) => Ok (Re.group1 m)
  | Ok None => Ok None
  end.

(** Lines 65-95: the body of the loop of [main], for one recipe file;
    it returns the status it wrote and the counters. *)
Definition analyze_recipe (index_content recipe_file : string) (c : counters)
  : M (status * counters) :=
  let recipe_name := Py.replace ".html" "" recipe_file in
  print ("Analyzing " +:+ recipe_name +:+ "...") ;;
  recipe_tags <- extract_tags_from_recipe_page recipe_file ;;
  match recipe_tags with
  | None =>
      write report_path ("Recipe: " +:+ recipe_name +:+ " (ERROR)" +:+ Py.nl) ;;
      write report_path
        ("No Tags Section found or error processing file" +:+ Py.nl +:+ Py.nl) ;;
      ret (ERROR, Counters (mismatches c) (matches c) (errors c + 1))
  | Some recipe_tags =>
      let formatted := formatted_data_tags recipe_tags in
      current_data_tags <- lift (extract_current_tags_from_index index_content recipe_name) ;;
      let '(st, c') :=
        if decide (current_data_tags = Some formatted)
        then (MATCH, Counters (mismatches c) (matches c + 1) (errors c))
        else (MISMATCH, Counters (mismatches c + 1) (matches c) (errors c)) in
      write report_path
        ("Recipe: " +:+ recipe_name +:+ " (" +:+ status_str st +:+ ")" +:+ Py.nl) ;;
      write report_path
        ("Tags on recipe page: " +:+ Py.join ", " recipe_tags +:+ Py.nl) ;;
      write report_path
        ("Current data-tags in index.html: " +:+ Py.fmt_option current_data_tags +:+ Py.nl) ;;
      write report_path
        ("Correct data-tags should be: " +:+ formatted +:+ Py.nl +:+ Py.nl) ;;
      ret (st, c')
  end.

(** Lines 64-95: the loop. *)
Definition analyze_all (index_content : string) (recipe_files : list string)
  : counters -> M counters :=
  for_each recipe_files
    (fun recipe_file c =>
       r <- analyze_recipe index_content recipe_file c ;; ret (snd r)).

(** Lines 58-102: what the run does with the list of recipe files of line
    57, from the line that counts them to the summary; it returns the final
    counters. *)
Definition report_files (index_content : string) (recipe_files : list string)
  : M counters :=
  write report_path
    ("Found " +:+ pretty (length recipe_files) +:+ " recipe HTML files to analyze"
       +:+ Py.nl +:+ Py.nl) ;;
  c <- analyze_all index_content recipe_files (Counters 0 0 0) ;;
  write report_path ("Summary:" +:+ Py.nl) ;;
  write report_path
    ("- Total recipes analyzed: " +:+ pretty (length recipe_files) +:+ Py.nl) ;;
  write report_path ("- Matches: " +:+ pretty (matches c) +:+ Py.nl) ;;
  write report_path ("- Mismatches: " +:+ pretty (mismatches c) +:+ Py.nl) ;;
  write report_path ("- Errors: " +:+ pretty (errors c) +:+ Py.nl) ;;
  ret c.

(** [main], with the condition of the comprehension of line 57 as the
    parameter [keep]: the source writes it [f \!= "index.html"], which is
    not Python as it stands.  The run returns the files it scanned and the
    final counters, the values its summary is printed from. *)
Definition main_with (keep : string -> bool) : M (list string * counters) :=
  index_content <- read_text "index.html" ;;
  open_w report_path ;;
  write report_path ("Recipe Tag Analysis Report" +:+ Py.nl) ;;
  write report_path ("=========================" +:+ Py.nl +:+ Py.nl) ;;
  html <- glob_html "" ;;
  let recipe_files := List.filter keep html in
  c <- report_files index_content recipe_files ;;
  print "Analysis complete. Report generated in tag_analysis_report.txt" ;;
  print ("Found " +:+ pretty (mismatches c) +:+ " recipes with mismatched tags.") ;;
  ret (recipe_files, c).

(** [main] with line 57 read as [f != "index.html"]. *)
Definition main : M (list string * counters) :=
  main_with (fun f => negb (bool_decide (f = "index.html"))).

(** Lines 10-14 on their own: reading the file and parsing it. *)
Definition read_and_parse (file_path : string) : M node :=
  content <- read_text file_path ;;
  lift (BeautifulSoup content).

End Libraries.

(** The report after the two lines of an ERROR entry (lines 72-73). *)
Definition error_entry (recipe_name : string) (w : world) : world :=
  written report_path
    ("No Tags Section found or error processing file" +:+ Py.nl +:+ Py.nl)
    (written report_path ("Recipe: " +:+ recipe_name +:+ " (ERROR)" +:+ Py.nl) w).

(** The report after the four lines of a compared entry (lines 92-95). *)
Definition compared_entry (recipe_name : string) (st : status)
    (recipe_tags : list string) (current : option string) (w : world) : world :=
  written report_path
    ("Correct data-tags should be: " +:+ formatted_data_tags recipe_tags
       +:+ Py.nl +:+ Py.nl)
    (written report_path
       ("Current data-tags in index.html: " +:+ Py.fmt_option current +:+ Py.nl)
       (written report_path
          ("Tags on recipe page: " +:+ Py.join ", " recipe_tags +:+ Py.nl)
          (written report_path
             ("Recipe: " +:+ recipe_name +:+ " (" +:+ status_str st +:+ ")" +:+ Py.nl)
             w))).

(** Line 66: standard output after the progress line of a file. *)
Definition announced (recipe_file : string) (w : world) : world :=
  printed ("Analyzing " +:+ Py.replace ".html" "" recipe_file +:+ "...") w.

(** [c'] is [c] with one added to exactly one counter. *)
Definition one_more (c c' : counters) : Prop :=
  (mismatches c' = S (mismatches c) /\ matches c' = matches c /\ errors c' = errors c) \/
  (mismatches c' = mismatches c /\ matches c' = S (matches c) /\ errors c' = errors c) \/
  (mismatches c' = mismatches c /\ matches c' = matches c /\ errors c' = S (errors c)).

(** The marker strings of a parsed page, as line 18 finds them. *)
Definition markers (soup : Bs4.node) : list Bs4.element :=
  find_all_string soup is_tags_marker.

(** No text node of one of the [kinds] holds the marker phrase and has a
    parent with a later sibling [div]. *)
Definition no_section_marked_by (kinds : list string_kind) (soup : node) : Prop :=
  forall e k s,
    (e, NavigableString k s) ∈ descendants soup ->
    k ∈ kinds ->
    is_tags_marker s = true ->
    find_next_sibling soup (find_parent e) "div" = None.

End AnalyzeRecipeTags.

(** ** The header rewriter *)

Module UpdateHeaders.
Import Sys.
Local Open Scope py_scope.

(** Lines 7-17: the new header, line by line.  The two comments open with
    a backslash before the exclamation mark: the literal is not a raw
    string, but Python keeps the backslash of an escape it does not know. *)
Definition NEW_HEADER_lines : list string :=
  [
    "<body>";
    "    <\!-- Header -->";
    "    <div class=" +:+ Py.dquote +:+ "container-fluid border-divider-b z-30 bg-black bg-opacity-80 absolute top-0 left-0 right-0" +:+ Py.dquote +:+ ">";
    "        <header class=" +:+ Py.dquote +:+ "container mx-auto flex flex-wrap items-center p-4 px-4" +:+ Py.dquote +:+ ">";
    "            <\!-- Logo and Navigation - Mobile version -->";
    "            <div class=" +:+ Py.dquote +:+ "flex items-center justify-between text-sm md:hidden w-full" +:+ Py.dquote +:+ " style=" +:+ Py.dquote +:+ "margin-bottom: 1.1rem;" +:+ Py.dquote +:+ ">";
    "                <a href=" +:+ Py.dquote +:+ "index" +:+ Py.dquote +:+ " class=" +:+ Py.dquote +:+ "hover:text-gray-300 flex items-center whitespace-nowrap" +:+ Py.dquote +:+ ">";
    "                    <img src=" +:+ Py.dquote +:+ "assets/img/logo.png" +:+ Py.dquote +:+ " alt=" +:+ Py.dquote +:+ "Tasty Cooking Logo" +:+ Py.dquote +:+ " class=" +:+ Py.dquote +:+ "h-6 w-auto mr-3" +:+ Py.dquote +:+ ">";
    "                    <span class=" +:+ Py.dquote +:+ "font-cheee-wowie text-xl text-[#e2ded8]" +:+ Py.dquote +:+ ">Tasty Cooking</span>";
    "                </a>";
    "            </div>"
  ].

Definition NEW_HEADER : string := Py.join Py.nl NEW_HEADER_lines.

Definition site_dir : string := "/Users/Jim/Documents/GitHub/tasty-cooking/".

(** Line 21: the test a globbed path has to pass. *)
Definition selected (f : string) : bool :=
  negb (Py.endswith "index.html" f || Py.endswith "sesame-green-beans.html" f).

(** Lines 20-21. *)
Definition html_files : M (list string) :=
  found <- glob_html site_dir ;;
  ret (List.filter selected found).

(** Line 31: the pattern, and the div opening tag it ends with. *)
Definition marker_div : string :=
  "<div class=" +:+ Py.dquote
    +:+ "flex items-center justify-between text-sm md:hidden" +:+ Py.dquote +:+ ">".

Definition pattern : string :=
  "<body>.*?<div class=" +:+ Py.dquote
    +:+ "flex items-center justify-between text-sm md:hidden" +:+ Py.dquote +:+ ">".

(** What the pattern compiles to under DOTALL. *)
Definition header_regex : Re.regex := Re.span "<body>" marker_div.

(** Line 35: [re.sub(pattern, replacement, content, flags=re.DOTALL)]. *)
Definition new_content (content : string) : result string :=
  match Re.compile true pattern, Re.template NEW_HEADER with
  | Some r, Some replacement => Ok (Re.sub_from r replacement 0 content)
  | _, _ => Raise "re.error"
  end.

(** Lines 25-38: the body of the loop, for one file. *)
Definition update_file (file_path : string) : M unit :=
  print ("Processing " +:+ file_path +:+ "...") ;;
  content <- read_text file_path ;;
  new <- lift (new_content content) ;;
  open_w file_path ;;
  write file_path new.

Definition update_headers : M unit :=
  files <- html_files ;;
  for_each files (fun file_path _ => update_file file_path) tt ;;
  print "Header update complete\!".

End UpdateHeaders.

(** ** Concrete pages, index and directory *)

Module Examples.
Import Sys Bs4 AnalyzeRecipeTags.

Definition q (s : string) : string := Py.dquote +:+ s +:+ Py.dquote.

(** A page with a tags section marked by a comment. *)
Definition curry_html : string :=
  "<div><!-- Tags Section --></div><div><span class=" +:+ q "inline-flex px-2"
    +:+ "> Main Course </span><span class=" +:+ q "inline-flex"
    +:+ ">Spicy</span></div>".

Definition curry_soup : node :=
  Tag "[document]" None
    [ Tag "div" None [ NavigableString Comment " Tags Section " ];
      Tag "div" None
        [ Tag "span" (Some ["inline-flex"; "px-2"]) [ NavigableString Plain " Main Course " ];
          Tag "span" (Some ["inline-flex"]) [ NavigableString Plain "Spicy" ] ] ].

(** A page whose marker is a heading, not a comment. *)
Definition salad_html : string :=
  "<h3>Tags Section</h3><div><span class=" +:+ q "inline-flex" +:+ ">Salad</span></div>".

Definition salad_soup : node :=
  Tag "[document]" None
    [ Tag "h3" None [ NavigableString Plain "Tags Section" ];
      Tag "div" None
        [ Tag "span" (Some ["inline-flex"]) [ NavigableString Plain "Salad" ] ] ].

(** A page whose tags section holds no tag. *)
Definition plain_html : string :=
  "<p><!-- Tags Section --></p><div><span class=" +:+ q "badge"
    +:+ ">x</span><span class=" +:+ q "inline-flex" +:+ "> </span></div>".

Definition plain_soup : node :=
  Tag "[document]" None
    [ Tag "p" None [ NavigableString Comment " Tags Section " ];
      Tag "div" None
        [ Tag "span" (Some ["badge"]) [ NavigableString Plain "x" ];
          Tag "span" (Some ["inline-flex"]) [ NavigableString Plain " " ] ] ].

(** A page without a tags section. *)
Definition about_html : string := "<p>About</p>".

Definition about_soup : node :=
  Tag "[document]" None [ Tag "p" None [ NavigableString Plain "About" ] ].

(** The trees [html.parser] builds for these pages; it is given no other
    text here. *)
Definition BeautifulSoup (content : string) : result node :=
  if decide (content = curry_html) then Ok curry_soup
  else if decide (content = salad_html) then Ok salad_soup
  else if decide (content = plain_html) then Ok plain_soup
  else if decide (content = about_html) then Ok about_soup
  else Raise "not an example page".

(** [re.search] for the examples, through [Re]: an answer is Python's on the
    patterns of the fragment, and on a pattern that leaves a parenthesis
    open, where both raise.  A pattern with any other syntax is refused
    here whether Python compiles it or not, so the examples use no file
    name with another special character. *)
Definition re_search (pattern s : string) : result (option Re.match_object) :=
  match Re.compile false pattern with
  | Some r =>
      Ok (match Re.search r s with
          | Some (_, _, cs) => Some (Re.match_object_of cs)
          | None => None
          end)
  | None => Raise "re.error"
  end.

Definition index_html : string :=
  "<a href=" +:+ q "curry" +:+ " class=" +:+ q "card" +:+ " data-tags="
    +:+ q "main-course spicy" +:+ ">Curry</a><a href=" +:+ q "plain"
    +:+ " data-tags=" +:+ q "quick" +:+ ">Plain</a>".

Definition site : world :=
  {| fs := list_to_map
             [ ("index.html", Text index_html);
               ("curry.html", Text curry_html);
               ("salad.html", Text salad_html);
               ("plain.html", Text plain_html);
               ("about.html", Text about_html);
               ("drafts.html", Unreadable "[Errno 21] Is a directory: 'drafts.html'");
               ("notes.txt", Text "todo") ];
     stdout := [] |}.

(** The directory of the header rewriter. *)
Definition old_page : string :=
  "<html><body><p>old</p>" +:+ UpdateHeaders.marker_div +:+ "</div></body></html>".

Definition rewriter_site : world :=
  {| fs := list_to_map
             [ (UpdateHeaders.site_dir +:+ "index.html", Text old_page);
               (UpdateHeaders.site_dir +:+ "sesame-green-beans.html", Text old_page);
               (UpdateHeaders.site_dir +:+ "garlic-sesame-green-beans.html", Text old_page);
               (UpdateHeaders.site_dir +:+ "curry.html", Text old_page);
               (UpdateHeaders.site_dir +:+ "about.html", Text "<html><body>About</body></html>") ];
     stdout := [] |}.

End Examples.

(** ** Further directories *)

Module Cases.
Import Sys Bs4 AnalyzeRecipeTags.

(** A working directory without an index page, with an old report. *)
Definition no_index_site : world :=
  {| fs := list_to_map
             [ ("curry.html", Text Examples.curry_html);
               ("tag_analysis_report.txt", Text "old report") ];
     stdout := [] |}.

(** A working directory with a page whose name, put in the pattern of line
    40, leaves a parenthesis open, and with the report of an earlier run. *)
Definition paren_site : world :=
  {| fs := list_to_map
             [ ("index.html", Text Examples.index_html);
               ("c(.html", Text Examples.curry_html);
               ("curry.html", Text Examples.curry_html);
               ("tag_analysis_report.txt", Text "old report") ];
     stdout := [] |}.

(** A parsed page with two markers: a heading that no div follows, then a
    comment whose parent is followed by the div of the tags. *)
Definition two_markers_soup : node :=
  Tag "[document]" None
    [ Tag "header" None [ Tag "h2" None [ NavigableString Plain "Tags Section" ] ];
      Tag "p" None [ NavigableString Comment " Tags Section " ];
      Tag "div" None
        [ Tag "span" (Some ["inline-flex"]) [ NavigableString Plain "Vegan" ] ] ].

(** A page with two marker comments: the div after the first holds a tag,
    the div after the second holds none. *)
Definition two_sections_html : string :=
  "<p><!-- Tags Section --></p><div><span class=" +:+ Examples.q "inline-flex"
    +:+ ">Vegan</span></div><p><!-- Tags Section --></p><div><span class="
    +:+ Examples.q "badge" +:+ ">soon</span></div>".

Definition two_sections_soup : node :=
  Tag "[document]" None
    [ Tag "p" None [ NavigableString Comment " Tags Section " ];
      Tag "div" None
        [ Tag "span" (Some ["inline-flex"]) [ NavigableString Plain "Vegan" ] ];
      Tag "p" None [ NavigableString Comment " Tags Section " ];
      Tag "div" None
        [ Tag "span" (Some ["badge"]) [ NavigableString Plain "soon" ] ] ].

(** A page whose only tag span holds a no-break space, written [&nbsp;] in
    the page and U+00A0 in the parsed text. *)
Definition nbsp : string := String "160"%char "".

Definition blank_html : string :=
  "<p><!-- Tags Section --></p><div><span class=" +:+ Examples.q "inline-flex"
    +:+ ">&nbsp;</span></div>".

Definition blank_soup : node :=
  Tag "[document]" None
    [ Tag "p" None [ NavigableString Comment " Tags Section " ];
      Tag "div" None
        [ Tag "span" (Some ["inline-flex"]) [ NavigableString Plain nbsp ] ] ].

(** The trees [html.parser] builds for these two pages and for the pages of
    [Examples]. *)
Definition BeautifulSoup (content : string) : result node :=
  if decide (content = two_sections_html) then Ok two_sections_soup
  else if decide (content = blank_html) then Ok blank_soup
  else Examples.BeautifulSoup content.

Definition sections_site : world :=
  {| fs := list_to_map
             [ ("index.html", Text Examples.index_html);
               ("two.html", Text two_sections_html);
               ("blank.html", Text blank_html) ];
     stdout := [] |}.

(** A directory of the header rewriter with a page that cannot be read. *)
Definition locked_site : world :=
  {| fs := list_to_map
             [ (UpdateHeaders.site_dir +:+ "locked.html",
                Unreadable "[Errno 13] Permission denied");
               (UpdateHeaders.site_dir +:+ "index.html", Text Examples.old_page) ];
     stdout := [] |}.

End Cases.

(** ** Files that only grow *)

Module Effects.
Import Sys.

(** A computation that, however it ends, leaves a text file as it was with
    something added at its end. *)
Definition appends_to {A} (path : string) (m : M A) : Prop :=
  forall w w' r t,
    m w = (w', r) ->
    fs w !! path = Some (Text t) ->
    exists u, fs w' !! path = Some (Text (t +:+ u)).

End Effects.

(** ** The normalization rule as the specification words it *)

Module SpecWords.

(** "every internal space replaced by a hyphen", character by character. *)
Fixpoint hyphenate (s : string) : string :=
  match s with
  | "" => ""
  | String c s' => String (if decide (c = " "%char) then "-"%char else c) (hyphenate s')
  end.

Definition normalize_tag (t : string) : string := hyphenate (Py.lower t).

(** [n1 + ' ' + n2 + ' ' + ...], in the order of the list. *)
Fixpoint space_join (l : list string) : string :=
  match l with
  | [] => ""
  | [t] => t
  | t :: rest => t +:+ " " +:+ space_join rest
  end.

Definition normalized_string (tags : list string) : string :=
  space_join (map normalize_tag tags).

End SpecWords.

Import AnalyzeRecipeTags.

Lemma replace_space_hyphenate s :
  Py.replace " " "-" s = SpecWords.hyphenate s.
Proof.
  unfold Py.replace. induction s as [|c s IH]; [done|].
  cbn [Py.replace_from SpecWords.hyphenate Py.startswith String.length Nat.sub].
  destruct (decide (" "%char = c)) as [<-|Hne].
  - rewrite decide_True by done. cbn. by rewrite IH.
  - rewrite decide_False by congruence. by rewrite IH.
Qed.

Lemma join_space_join l : Py.join " " l = SpecWords.space_join l.
Proof.
  unfold Py.join. induction l as [|t [|u l] IH]; [done..|].
  cbn [String.concat SpecWords.space_join] in *. by rewrite IH.
Qed.

(** C1: the computed data-tags string is the single-space join, in order, of
    the tags lower-cased with each space replaced by a hyphen; the tags
    "Main Course", "Spicy" give "main-course spicy". *)
Theorem C1_formatted_data_tags_normalized :
  (forall T : list string,
     formatted_data_tags T = SpecWords.normalized_string T) /\
  formatted_data_tags ["Main Course"; "Spicy"] = "main-course spicy".
Proof.
  split; [|reflexivity].
  intros T. unfold formatted_data_tags, SpecWords.normalized_string.
  rewrite join_space_join. f_equal.
  apply map_ext. intros t. apply replace_space_hyphenate.
Qed.





Create HintDb keeps.

(** * Facts about the queries and about computations in general *)

Import Sys Bs4.

(** The loop of lines 18-21 finds nothing exactly when no marker has a
    parent with a later sibling [div]. *)
Lemma find_tags_section_None soup comments :
  find_tags_section soup comments = None <->
  forall e, e ∈ comments -> find_next_sibling soup (find_parent e) "div" = None.
Proof.
  induction comments as [|e rest IH]; cbn.
  - split; [|done]. intros _ e He. by apply elem_of_nil in He.
  - destruct (find_next_sibling soup (find_parent e) "div") eqn:Hs.
    + split; [done|]. intros H. specialize (H e (list_elem_of_here _ _)). congruence.
    + rewrite IH. split.
      * intros H x [->|Hx]%elem_of_cons; auto.
      * intros H x Hx. apply H. by apply list_elem_of_further.
Qed.

Lemma elem_of_markers soup e :
  e ∈ markers soup <->
  exists k s, (e, NavigableString k s) ∈ descendants soup /\ is_tags_marker s = true.
Proof.
  unfold markers, find_all_string. rewrite list_elem_of_omap. split.
  - intros ([e' [name cls cs|k s]] & Hd & Hm); cbn in Hm; [done|].
    destruct (is_tags_marker s) eqn:Hs; [|done]. injection Hm as <-. eauto.
  - intros (k & s & Hd & Hs). exists (e, NavigableString k s). split; [done|].
    cbn. by rewrite Hs.
Qed.

Lemma no_section_find soup :
  no_section_marked_by [Plain; Comment; CData; OtherString] soup <->
  find_tags_section soup (markers soup) = None.
Proof.
  rewrite find_tags_section_None. unfold no_section_marked_by. split.
  - intros H e (k & s & Hd & Hs)%elem_of_markers. apply (H e k s); [done| |done].
    destruct k; set_solver.
  - intros H e k s Hd _ Hs. apply H, elem_of_markers. eauto.
Qed.

Lemma bind_Ok {A B} (m : M A) (k : A -> M B) w w' b :
  bind m k w = (w', Ok b) ->
  exists w1 a, m w = (w1, Ok a) /\ k a w1 = (w', Ok b).
Proof. unfold bind. destruct (m w) as [w1 [a|e]]; [eauto|done]. Qed.

(** Which files a computation leaves alone. *)

Lemma keeps_ret {A} path (a : A) : keeps path (ret a).
Proof. by intros w w' r [= <- _]. Qed.

Lemma keeps_lift {A} path (x : result A) : keeps path (lift x).
Proof. by intros w w' r [= <- _]. Qed.

Lemma keeps_print path line : keeps path (print line).
Proof. by intros w w' r [= <- _]. Qed.

Lemma keeps_read_text path file_path : keeps path (read_text file_path).
Proof.
  intros w w' r. unfold read_text.
  by destruct (fs w !! file_path) as [[t|e]|]; intros [= <- _].
Qed.

Lemma keeps_glob_html path dir : keeps path (glob_html dir).
Proof. by intros w w' r [= <- _]. Qed.

Lemma keeps_write path file_path s :
  path <> file_path -> keeps path (write file_path s).
Proof.
  intros Hne w w' r [= <- _]. cbn. by rewrite lookup_insert_ne.
Qed.

Lemma keeps_open_w path file_path :
  path <> file_path -> keeps path (open_w file_path).
Proof.
  intros Hne w w' r. unfold open_w.
  destruct (fs w !! file_path) as [[t|e]|]; intros [= <- _]; cbn;
    by rewrite ?lookup_insert_ne.
Qed.

Lemma keeps_bind {A B} path (m : M A) (k : A -> M B) :
  keeps path m -> (forall a, keeps path (k a)) -> keeps path (bind m k).
Proof.
  intros Hm Hk w w' r. unfold bind.
  destruct (m w) as [w1 [a|e]] eqn:Hmw.
  - intros Hka. rewrite (Hk a _ _ _ Hka). eauto.
  - intros [= <- _]. eauto.
Qed.

Lemma keeps_try_except {A} path (m : M A) (h : exn -> M A) :
  keeps path m -> (forall e, keeps path (h e)) -> keeps path (try_except m h).
Proof.
  intros Hm Hh w w' r. unfold try_except.
  destruct (m w) as [w1 [a|e]] eqn:Hmw.
  - intros [= <- _]. eauto.
  - intros Hhe. rewrite (Hh e _ _ _ Hhe). eauto.
Qed.

Lemma keeps_for_each {A S} path (l : list A) (body : A -> S -> M S) :
  (forall x s, keeps path (body x s)) -> forall s, keeps path (for_each l body s).
Proof.
  intros Hbody. induction l as [|x rest IH]; intros s; cbn.
  - apply keeps_ret.
  - apply keeps_bind; auto.
Qed.

#[global] Hint Resolve keeps_ret keeps_lift keeps_print keeps_read_text keeps_glob_html
  keeps_write keeps_open_w keeps_bind keeps_try_except keeps_for_each : keeps.

(** * The tag auditor: what one recipe file does to the counters *)

Section AuditorFacts.
Import Sys Bs4.

Variable BeautifulSoup : string -> result node.
Variable re_search : string -> string -> result (option Re.match_object).

Let extract := extract_tags_from_recipe_page BeautifulSoup.
Let lookup_index := extract_current_tags_from_index re_search.
Let analyze := analyze_recipe BeautifulSoup re_search.

(** The extraction never raises and changes nothing but standard output. *)
Lemma extract_cases file_path w :
  extract file_path w =
    match read_and_parse BeautifulSoup file_path w with
    | (_, Ok soup) => (w, Ok (collect_tags <$> find_tags_section soup (markers soup)))
    | (_, Raise e) => (printed (error_line file_path e) w, Ok None)
    end.
Proof.
  unfold extract, extract_tags_from_recipe_page, extract_tags_body, try_except,
    read_and_parse, markers, bind, read_text, lift, ret, print.
  destruct (fs w !! file_path) as [[content|e]|]; [|done..].
  destruct (BeautifulSoup content) as [soup|e]; [|done].
  by destruct (find_tags_section _ _).
Qed.

Lemma extract_returns file_path w :
  exists w' tags, extract file_path w = (w', Ok tags) /\ fs w' = fs w.
Proof.
  rewrite extract_cases.
  destruct (read_and_parse _ _ w) as [w1 [soup|e]]; eauto.
Qed.

(** The three ways the loop body ends. *)
Lemma analyze_error index_content recipe_file c w w1 :
  let recipe_name := Py.replace ".html" "" recipe_file in
  extract recipe_file (announced recipe_file w) = (w1, Ok None) ->
  analyze index_content recipe_file c w =
    (error_entry recipe_name w1,
     Ok (ERROR, Counters (mismatches c) (matches c) (errors c + 1))).
Proof.
  intros recipe_name H.
  unfold analyze, analyze_recipe, bind, print. fold extract. fold recipe_name.
  unfold announced in H. fold recipe_name in H. by rewrite H.
Qed.

Lemma analyze_compared index_content recipe_file c w w1 recipe_tags current :
  let recipe_name := Py.replace ".html" "" recipe_file in
  extract recipe_file (announced recipe_file w) = (w1, Ok (Some recipe_tags)) ->
  lookup_index index_content recipe_name = Ok current ->
  analyze index_content recipe_file c w =
    if decide (current = Some (formatted_data_tags recipe_tags))
    then (compared_entry recipe_name MATCH recipe_tags current w1,
          Ok (MATCH, Counters (mismatches c) (matches c + 1) (errors c)))
    else (compared_entry recipe_name MISMATCH recipe_tags current w1,
          Ok (MISMATCH, Counters (mismatches c + 1) (matches c) (errors c))).
Proof.
  intros recipe_name H Hidx.
  unfold analyze, analyze_recipe, bind, print, lift. fold extract. fold recipe_name.
  unfold announced in H. fold recipe_name in H.
  rewrite H. fold lookup_index. rewrite Hidx.
  by destruct (decide _).
Qed.

Lemma analyze_raises index_content recipe_file c w w1 recipe_tags e :
  let recipe_name := Py.replace ".html" "" recipe_file in
  extract recipe_file (announced recipe_file w) = (w1, Ok (Some recipe_tags)) ->
  lookup_index index_content recipe_name = Raise e ->
  analyze index_content recipe_file c w = (w1, Raise e).
Proof.
  intros recipe_name H Hidx.
  unfold analyze, analyze_recipe, bind, print, lift. fold extract. fold recipe_name.
  unfold announced in H. fold recipe_name in H.
  rewrite H. fold lookup_index. by rewrite Hidx.
Qed.

(** Each file that is analyzed adds one to exactly one counter. *)
Lemma analyze_one_more index_content recipe_file c w w' st c' :
  analyze index_content recipe_file c w = (w', Ok (st, c')) ->
  one_more c c' /\
  (st = MISMATCH <-> mismatches c' = S (mismatches c)) /\
  (st = MATCH <-> matches c' = S (matches c)) /\
  (st = ERROR <-> errors c' = S (errors c)).
Proof.
  set (recipe_name := Py.replace ".html" "" recipe_file).
  destruct (extract_returns recipe_file (announced recipe_file w))
    as (w1 & [recipe_tags|] & Hex & _).
  - destruct (lookup_index index_content recipe_name) as [current|e] eqn:Hidx.
    + rewrite (analyze_compared _ _ _ _ _ _ _ Hex Hidx).
      destruct (decide _); intros [= <- <- <-]; unfold one_more; cbn;
        repeat split; intros; try discriminate; try lia; auto with lia.
    + by rewrite (analyze_raises _ _ _ _ _ _ _ Hex Hidx).
  - rewrite (analyze_error _ _ _ _ _ Hex).
    intros [= <- <- <-]; unfold one_more; cbn;
      repeat split; intros; try discriminate; try lia; auto with lia.
Qed.

Lemma analyze_all_count index_content recipe_files :
  forall c w w' c',
    analyze_all BeautifulSoup re_search index_content recipe_files c w = (w', Ok c') ->
    matches c' + mismatches c' + errors c'
      = matches c + mismatches c + errors c + length recipe_files.
Proof.
  induction recipe_files as [|f rest IH]; intros c w w' c'.
  - intros [= <- <-]. cbn. lia.
  - unfold analyze_all. cbn [for_each]. unfold bind at 1 2.
    fold (analyze index_content f c w).
    destruct (analyze index_content f c w) as [w1 [[st c1]|e]] eqn:Hone; [|done].
    cbn [ret snd]. intros Hrest. apply IH in Hrest.
    apply analyze_one_more in Hone as [Hone _].
    unfold one_more in Hone. cbn [length]. lia.
Qed.

(** Reading and parsing look at the files only and change nothing. *)
Lemma read_and_parse_cases file_path w :
  read_and_parse BeautifulSoup file_path w =
    (w, match fs w !! file_path with
        | Some (Text content) => BeautifulSoup content
        | Some (Unreadable e) => Raise e
        | None => Raise (no_such_file file_path)
        end).
Proof.
  unfold read_and_parse, bind, read_text, lift.
  by destruct (fs w !! file_path) as [[content|e]|].
Qed.

Lemma read_and_parse_announced file_path recipe_file w w0 r :
  read_and_parse BeautifulSoup file_path w = (w0, r) ->
  read_and_parse BeautifulSoup file_path (announced recipe_file w)
    = (announced recipe_file w, r).
Proof. rewrite !read_and_parse_cases. by intros [= <- <-]. Qed.

Lemma extract_parsed file_path w content soup :
  fs w !! file_path = Some (Text content) ->
  BeautifulSoup content = Ok soup ->
  extract file_path w = (w, Ok (collect_tags <$> find_tags_section soup (markers soup))).
Proof.
  intros Hf Hp. rewrite extract_cases, read_and_parse_cases, Hf, Hp. done.
Qed.

Lemma extract_failed file_path w w0 e :
  read_and_parse BeautifulSoup file_path w = (w0, Raise e) ->
  extract file_path w = (printed (error_line file_path e) w, Ok None).
Proof. intros H. by rewrite extract_cases, H. Qed.

Lemma keeps_extract path file_path : keeps path (extract file_path).
Proof.
  unfold extract, extract_tags_from_recipe_page, extract_tags_body.
  apply keeps_try_except; [|auto with keeps].
  apply keeps_bind; [auto with keeps|]. intros content.
  apply keeps_bind; [auto with keeps|]. intros soup.
  destruct (find_tags_section _ _); auto with keeps.
Qed.

Lemma keeps_analyze path index_content recipe_file c :
  path <> report_path -> keeps path (analyze index_content recipe_file c).
Proof.
  intros Hne. unfold analyze, analyze_recipe.
  apply keeps_bind; [auto with keeps|]. intros _.
  apply keeps_bind; [apply keeps_extract|]. intros [recipe_tags|].
  - apply keeps_bind; [auto with keeps|]. intros current.
    destruct (decide _); auto 10 with keeps.
  - auto 10 with keeps.
Qed.

Lemma keeps_report_files path index_content recipe_files :
  path <> report_path ->
  keeps path (report_files BeautifulSoup re_search index_content recipe_files).
Proof.
  intros Hne. unfold report_files, analyze_all.
  apply keeps_bind; [auto with keeps|]. intros _.
  apply keeps_bind.
  - apply keeps_for_each. intros f c.
    apply keeps_bind; [by apply keeps_analyze|auto with keeps].
  - intros c. auto 20 with keeps.
Qed.

Lemma keeps_main_with keep path :
  path <> report_path -> keeps path (main_with BeautifulSoup re_search keep).
Proof.
  intros Hne. unfold main_with.
  apply keeps_bind; [auto with keeps|]. intros index_content.
  do 3 (apply keeps_bind; [auto with keeps|]; intros _).
  apply keeps_bind; [auto with keeps|]. intros html.
  apply keeps_bind; [by apply keeps_report_files|]. intros c.
  auto 20 with keeps.
Qed.

Lemma keeps_main path :
  path <> report_path -> keeps path (main BeautifulSoup re_search).
Proof. apply keeps_main_with. Qed.

End AuditorFacts.

(** * The claims about the tag auditor *)

(** Case analysis on a node of a concrete tree. *)
Ltac each_descendant soup H :=
  let l := eval vm_compute in (descendants soup) in
  change (descendants soup) with l in H;
  repeat (apply elem_of_cons in H as [H|H]);
  [.. | by apply elem_of_nil in H].

Import Sys Bs4.

(** C2: a recipe whose tags were extracted and whose index lookup returned
    gets MATCH exactly when the value found in the index is the computed
    string, character for character, and MISMATCH in every other case. *)
Theorem C2_match_iff_exact_equality
    (BeautifulSoup : string -> result node)
    (re_search : string -> string -> result (option Re.match_object))
    (index_content recipe_file : string) (c : counters) (w w1 : world)
    (recipe_tags : list string) (current : option string) :
  extract_tags_from_recipe_page BeautifulSoup recipe_file (announced recipe_file w)
    = (w1, Ok (Some recipe_tags)) ->
  extract_current_tags_from_index re_search index_content
    (Py.replace ".html" "" recipe_file) = Ok current ->
  exists w' st c',
    analyze_recipe BeautifulSoup re_search index_content recipe_file c w = (w', Ok (st, c')) /\
    (st = MATCH <-> current = Some (formatted_data_tags recipe_tags)) /\
    (st = MISMATCH <-> current <> Some (formatted_data_tags recipe_tags)) /\
    w' = compared_entry (Py.replace ".html" "" recipe_file) st recipe_tags current w1.
Proof.
  intros Hex Hidx.
  rewrite (analyze_compared _ _ _ _ _ _ _ _ _ Hex Hidx).
  destruct (decide (current = Some (formatted_data_tags recipe_tags))) as [Heq|Hne].
  - eexists _, MATCH, _. repeat split; auto; try done.
  - eexists _, MISMATCH, _. repeat split; auto; try done.
Qed.

Lemma C2_witness :
  exists w' st c',
    analyze_recipe Examples.BeautifulSoup Examples.re_search Examples.index_html
      "curry.html" (Counters 0 0 0) Examples.site = (w', Ok (st, c')) /\
    (st = MATCH <-> Some "main-course spicy" = Some (formatted_data_tags ["Main Course"; "Spicy"])) /\
    (st = MISMATCH <-> Some "main-course spicy" <> Some (formatted_data_tags ["Main Course"; "Spicy"])) /\
    w' = compared_entry (Py.replace ".html" "" "curry.html") st ["Main Course"; "Spicy"]
           (Some "main-course spicy") (announced "curry.html" Examples.site).
Proof.
  apply (C2_match_iff_exact_equality Examples.BeautifulSoup Examples.re_search
           Examples.index_html "curry.html" (Counters 0 0 0) Examples.site
           (announced "curry.html" Examples.site)).
  - vm_compute. reflexivity.
  - vm_compute. reflexivity.
Defined.

(** The loop ends normally when [re.search] raises on none of the patterns
    of its files. *)
Lemma analyze_all_returns BeautifulSoup re_search index_content recipe_files :
  (forall f, f ∈ recipe_files ->
     exists m, re_search (index_pattern (Py.replace ".html" "" f)) index_content = Ok m) ->
  forall c w, exists w' c',
    analyze_all BeautifulSoup re_search index_content recipe_files c w = (w', Ok c').
Proof.
  induction recipe_files as [|f rest IH]; intros Hre c w.
  - by eexists _, _.
  - assert (forall c w, exists w' c',
              analyze_all BeautifulSoup re_search index_content rest c w = (w', Ok c'))
      as Hrest.
    { apply IH. intros x Hx. apply Hre. by apply list_elem_of_further. }
    unfold analyze_all. cbn [for_each]. unfold bind at 1 2.
    destruct (extract_returns BeautifulSoup f (announced f w)) as (w1 & tags & Hex & _).
    destruct tags as [recipe_tags|].
    + destruct (Hre f (list_elem_of_here _ _)) as [m Hm].
      assert (exists current,
                extract_current_tags_from_index re_search index_content
                  (Py.replace ".html" "" f) = Ok current) as [current Hidx].
      { unfold extract_current_tags_from_index. rewrite Hm. destruct m; eauto. }
      rewrite (analyze_compared _ _ _ _ _ _ _ _ _ Hex Hidx).
      destruct (decide _); cbn [ret snd]; apply Hrest.
    + rewrite (analyze_error _ _ _ _ _ _ _ Hex). cbn [ret snd]. apply Hrest.
Qed.

Lemma written_lookup_ne path s w p :
  p <> path -> fs (written path s w) !! p = fs w !! p.
Proof. intros Hne. cbn. by rewrite lookup_insert_ne. Qed.

Lemma report_files_Ok BeautifulSoup re_search index_content recipe_files w w' c :
  report_files BeautifulSoup re_search index_content recipe_files w = (w', Ok c) ->
  exists w1 w2,
    analyze_all BeautifulSoup re_search index_content recipe_files (Counters 0 0 0) w1
      = (w2, Ok c).
Proof.
  unfold report_files. intros H.
  apply bind_Ok in H as (w1 & [] & _ & H).
  apply bind_Ok in H as (w2 & c1 & Hloop & H).
  do 5 apply bind_Ok in H as (? & ? & _ & H).
  injection H as _ <-. eauto.
Qed.

(** C4: for any list of recipe files, when the loop of [main] has gone
    through it, and so when lines 58-102 have written the summary, the three
    counters add up to the number of files: every file adds one to exactly
    one of them.  The loop does get to its end when [re.search] raises on
    the pattern of none of the files. *)
Theorem C4_counters_add_up
    (BeautifulSoup : string -> result node)
    (re_search : string -> string -> result (option Re.match_object))
    (index_content : string) (recipe_files : list string) (w : world) :
  (forall w' c,
     analyze_all BeautifulSoup re_search index_content recipe_files (Counters 0 0 0) w
       = (w', Ok c) ->
     matches c + mismatches c + errors c = length recipe_files) /\
  (forall w' c,
     report_files BeautifulSoup re_search index_content recipe_files w = (w', Ok c) ->
     matches c + mismatches c + errors c = length recipe_files) /\
  (forall recipe_file c0 w0 w1 st c1,
     analyze_recipe BeautifulSoup re_search index_content recipe_file c0 w0
       = (w1, Ok (st, c1)) ->
     one_more c0 c1) /\
  ((forall f, f ∈ recipe_files ->
      exists m, re_search (index_pattern (Py.replace ".html" "" f)) index_content = Ok m) ->
   exists w' c,
     analyze_all BeautifulSoup re_search index_content recipe_files (Counters 0 0 0) w
       = (w', Ok c) /\
     matches c + mismatches c + errors c = length recipe_files).
Proof.
  assert (forall w0 w' c,
            analyze_all BeautifulSoup re_search index_content recipe_files
              (Counters 0 0 0) w0 = (w', Ok c) ->
            matches c + mismatches c + errors c = length recipe_files) as Hsum.
  { intros w0 w' c Hloop. apply analyze_all_count in Hloop. cbn in Hloop. lia. }
  split; [by apply Hsum|]. split; [|split].
  - intros w' c (w1 & w2 & Hloop)%report_files_Ok. by eapply Hsum.
  - intros recipe_file c0 w0 w1 st c1 Hone.
    by apply analyze_one_more in Hone as [Hone _].
  - intros Hre.
    destruct (analyze_all_returns BeautifulSoup re_search index_content recipe_files
                Hre (Counters 0 0 0) w) as (w' & c & Hloop).
    exists w', c. split; [done|]. by eapply Hsum.
Qed.

Lemma C4_witness :
  (1 + 2 + 2 = length ["salad.html"; "curry.html"; "about.html"; "drafts.html"; "plain.html"]) /\
  (1 + 2 + 2 = length ["salad.html"; "curry.html"; "about.html"; "drafts.html"; "plain.html"]) /\
  one_more (Counters 3 5 7) (Counters 3 6 7) /\
  exists w' c,
    analyze_all Examples.BeautifulSoup Examples.re_search Examples.index_html
      ["salad.html"; "curry.html"; "about.html"; "drafts.html"; "plain.html"]
      (Counters 0 0 0) Examples.site = (w', Ok c) /\
    matches c + mismatches c + errors c
      = length ["salad.html"; "curry.html"; "about.html"; "drafts.html"; "plain.html"].
Proof.
  pose proof (C4_counters_add_up Examples.BeautifulSoup Examples.re_search
                Examples.index_html
                ["salad.html"; "curry.html"; "about.html"; "drafts.html"; "plain.html"]
                Examples.site) as (Hloop & Hreport & Hone & Hends).
  split; [|split; [|split]].
  - apply (Hloop (fst (analyze_all Examples.BeautifulSoup Examples.re_search
                         Examples.index_html
                         ["salad.html"; "curry.html"; "about.html"; "drafts.html"; "plain.html"]
                         (Counters 0 0 0) Examples.site))
             (Counters 2 1 2)).
    vm_compute. reflexivity.
  - apply (Hreport (fst (report_files Examples.BeautifulSoup Examples.re_search
                           Examples.index_html
                           ["salad.html"; "curry.html"; "about.html"; "drafts.html"; "plain.html"]
                           Examples.site))
             (Counters 2 1 2)).
    vm_compute. reflexivity.
  - apply (Hone "curry.html" (Counters 3 5 7) Examples.site
             (fst (analyze_recipe Examples.BeautifulSoup Examples.re_search
                     Examples.index_html "curry.html" (Counters 3 5 7) Examples.site))
             MATCH (Counters 3 6 7)).
    vm_compute. reflexivity.
  - apply Hends. intros f Hf.
    repeat (apply elem_of_cons in Hf as [->|Hf];
            [eexists; vm_compute; reflexivity|]).
    by apply elem_of_nil in Hf.
Defined.

(** C5, amended: a page in which no text node of any kind (a comment or
    plain text) holds "Tags Section" and has a parent with a later sibling
    div makes the extraction return None; the recipe gets ERROR and only the
    error counter grows. *)
Theorem C5_no_tags_section_is_error
    (BeautifulSoup : string -> result node)
    (re_search : string -> string -> result (option Re.match_object))
    (index_content recipe_file content : string) (soup : node)
    (c : counters) (w : world) :
  fs w !! recipe_file = Some (Text content) ->
  BeautifulSoup content = Ok soup ->
  no_section_marked_by [Plain; Comment; CData; OtherString] soup ->
  extract_tags_from_recipe_page BeautifulSoup recipe_file w = (w, Ok None) /\
  analyze_recipe BeautifulSoup re_search index_content recipe_file c w =
    (error_entry (Py.replace ".html" "" recipe_file) (announced recipe_file w),
     Ok (ERROR, Counters (mismatches c) (matches c) (errors c + 1))).
Proof.
  intros Hf Hp Hno%no_section_find.
  assert (forall w0, fs w0 = fs w ->
            extract_tags_from_recipe_page BeautifulSoup recipe_file w0 = (w0, Ok None))
    as Hex.
  { intros w0 Hfs. rewrite (extract_parsed _ _ _ content soup); [by rewrite Hno| |done].
    by rewrite Hfs. }
  split; [by apply Hex|].
  apply analyze_error, Hex. done.
Qed.

Lemma C5_witness :
  extract_tags_from_recipe_page Examples.BeautifulSoup "about.html" Examples.site
    = (Examples.site, Ok None) /\
  analyze_recipe Examples.BeautifulSoup Examples.re_search Examples.index_html
    "about.html" (Counters 3 5 7) Examples.site =
    (error_entry (Py.replace ".html" "" "about.html") (announced "about.html" Examples.site),
     Ok (ERROR, Counters 3 5 (7 + 1))).
Proof.
  apply (C5_no_tags_section_is_error Examples.BeautifulSoup Examples.re_search
           Examples.index_html "about.html" Examples.about_html Examples.about_soup
           (Counters 3 5 7) Examples.site).
  - vm_compute. reflexivity.
  - vm_compute. reflexivity.
  - intros e k s Hd _ Hm. each_descendant Examples.about_soup Hd.
    all: try discriminate Hd; injection Hd as -> -> ->; discriminate Hm.
Defined.

(** C5 as stated fails: a page without any comment, whose marker phrase
    stands in a heading followed by a div, has no tags section in the
    claim's sense, yet its tags are extracted and the recipe is compared. *)
Lemma C5_counterexample_marker_in_heading :
  fs Examples.site !! "salad.html" = Some (Text Examples.salad_html) /\
  Examples.BeautifulSoup Examples.salad_html = Ok Examples.salad_soup /\
  no_section_marked_by [Comment] Examples.salad_soup /\
  extract_tags_from_recipe_page Examples.BeautifulSoup "salad.html" Examples.site
    = (Examples.site, Ok (Some ["Salad"])) /\
  snd (analyze_recipe Examples.BeautifulSoup Examples.re_search Examples.index_html
         "salad.html" (Counters 0 0 0) Examples.site)
    = Ok (MISMATCH, Counters 1 0 0).
Proof.
  split; [by vm_compute|]. split; [by vm_compute|]. split.
  - intros e k s Hd Hk Hm. each_descendant Examples.salad_soup Hd.
    all: try discriminate Hd; injection Hd as -> -> ->.
    all: try discriminate Hm.
    apply list_elem_of_singleton in Hk. discriminate Hk.
  - split; by vm_compute.
Qed.

(** C6: when the tags of a page were extracted and the search of the index
    finds nothing, the value compared is None, the recipe gets MISMATCH, not
    ERROR, and the mismatch counter grows. *)
Theorem C6_missing_index_entry_is_mismatch
    (BeautifulSoup : string -> result node)
    (re_search : string -> string -> result (option Re.match_object))
    (index_content recipe_file content : string) (soup tags_section : node)
    (c : counters) (w : world) :
  fs w !! recipe_file = Some (Text content) ->
  BeautifulSoup content = Ok soup ->
  find_tags_section soup (markers soup) = Some tags_section ->
  re_search (index_pattern (Py.replace ".html" "" recipe_file)) index_content = Ok None ->
  extract_current_tags_from_index re_search index_content
    (Py.replace ".html" "" recipe_file) = Ok None /\
  None <> Some (formatted_data_tags (collect_tags tags_section)) /\
  analyze_recipe BeautifulSoup re_search index_content recipe_file c w =
    (compared_entry (Py.replace ".html" "" recipe_file) MISMATCH
       (collect_tags tags_section) None (announced recipe_file w),
     Ok (MISMATCH, Counters (mismatches c + 1) (matches c) (errors c))).
Proof.
  intros Hf Hp Hsec Hre.
  assert (extract_current_tags_from_index re_search index_content
            (Py.replace ".html" "" recipe_file) = Ok None) as Hidx.
  { unfold extract_current_tags_from_index. by rewrite Hre. }
  split; [done|]. split; [done|].
  erewrite analyze_compared; [| |exact Hidx].
  - by rewrite decide_False.
  - rewrite (extract_parsed _ _ _ content soup); [by rewrite Hsec|done..].
Qed.

Lemma C6_witness :
  extract_current_tags_from_index Examples.re_search Examples.index_html
    (Py.replace ".html" "" "salad.html") = Ok None /\
  None <> Some (formatted_data_tags
                  (collect_tags (Tag "div" None
                     [Tag "span" (Some ["inline-flex"]) [NavigableString Plain "Salad"]]))) /\
  analyze_recipe Examples.BeautifulSoup Examples.re_search Examples.index_html
    "salad.html" (Counters 0 0 0) Examples.site =
    (compared_entry (Py.replace ".html" "" "salad.html") MISMATCH
       (collect_tags (Tag "div" None
          [Tag "span" (Some ["inline-flex"]) [NavigableString Plain "Salad"]]))
       None (announced "salad.html" Examples.site),
     Ok (MISMATCH, Counters (0 + 1) 0 0)).
Proof.
  apply (C6_missing_index_entry_is_mismatch Examples.BeautifulSoup Examples.re_search
           Examples.index_html "salad.html" Examples.salad_html Examples.salad_soup).
  - vm_compute. reflexivity.
  - vm_compute. reflexivity.
  - vm_compute. reflexivity.
  - vm_compute. reflexivity.
Defined.

(** C7: when reading or parsing a recipe file raises [e], the exception is
    caught: the line "Error processing <file>: <e>" is printed after the
    progress line, the two lines of an ERROR entry for the recipe are
    written to the report, the error counter alone grows, and the loop goes
    on with the files that remain. *)
Theorem C7_file_failure_is_logged_and_skipped
    (BeautifulSoup : string -> result node)
    (re_search : string -> string -> result (option Re.match_object))
    (index_content recipe_file : string) (rest : list string)
    (c : counters) (w w0 : world) (e : exn) :
  read_and_parse BeautifulSoup recipe_file w = (w0, Raise e) ->
  let recipe_name := Py.replace ".html" "" recipe_file in
  let started := printed ("Analyzing " +:+ recipe_name +:+ "...") w in
  let logged := printed ("Error processing " +:+ recipe_file +:+ ": " +:+ e) started in
  let recorded :=
    written report_path
      ("No Tags Section found or error processing file" +:+ Py.nl +:+ Py.nl)
      (written report_path ("Recipe: " +:+ recipe_name +:+ " (ERROR)" +:+ Py.nl) logged) in
  let c' := Counters (mismatches c) (matches c) (errors c + 1) in
  extract_tags_from_recipe_page BeautifulSoup recipe_file started = (logged, Ok None) /\
  stdout recorded
    = stdout w ++ ["Analyzing " +:+ recipe_name +:+ "...";
                   "Error processing " +:+ recipe_file +:+ ": " +:+ e] /\
  analyze_recipe BeautifulSoup re_search index_content recipe_file c w
    = (recorded, Ok (ERROR, c')) /\
  analyze_all BeautifulSoup re_search index_content (recipe_file :: rest) c w
    = analyze_all BeautifulSoup re_search index_content rest c' recorded.
Proof.
  intros Hraise recipe_name started logged recorded c'.
  assert (extract_tags_from_recipe_page BeautifulSoup recipe_file started
            = (logged, Ok None)) as Hex.
  { change started with (announced recipe_file w).
    change logged
      with (printed (error_line recipe_file e) (announced recipe_file w)).
    eapply extract_failed, read_and_parse_announced, Hraise. }
  assert (analyze_recipe BeautifulSoup re_search index_content recipe_file c w
            = (recorded, Ok (ERROR, c'))) as Hone.
  { by apply analyze_error. }
  split; [done|]. split.
  { unfold recorded, logged, started, written, printed. cbn [stdout].
    by rewrite <- app_assoc. }
  split; [done|].
  unfold analyze_all. cbn [for_each]. unfold bind at 1 2. by rewrite Hone.
Qed.

Lemma C7_witness :
  let e := "[Errno 21] Is a directory: 'drafts.html'" in
  let recipe_name := Py.replace ".html" "" "drafts.html" in
  let started := printed ("Analyzing " +:+ recipe_name +:+ "...") Examples.site in
  let logged := printed ("Error processing " +:+ "drafts.html" +:+ ": " +:+ e) started in
  let recorded :=
    written report_path
      ("No Tags Section found or error processing file" +:+ Py.nl +:+ Py.nl)
      (written report_path ("Recipe: " +:+ recipe_name +:+ " (ERROR)" +:+ Py.nl) logged) in
  let c' := Counters 0 0 (0 + 1) in
  extract_tags_from_recipe_page Examples.BeautifulSoup "drafts.html" started
    = (logged, Ok None) /\
  stdout recorded
    = stdout Examples.site ++ ["Analyzing " +:+ recipe_name +:+ "...";
                               "Error processing " +:+ "drafts.html" +:+ ": " +:+ e] /\
  analyze_recipe Examples.BeautifulSoup Examples.re_search Examples.index_html
    "drafts.html" (Counters 0 0 0) Examples.site = (recorded, Ok (ERROR, c')) /\
  analyze_all Examples.BeautifulSoup Examples.re_search Examples.index_html
    ("drafts.html" :: ["curry.html"]) (Counters 0 0 0) Examples.site
    = analyze_all Examples.BeautifulSoup Examples.re_search Examples.index_html
        ["curry.html"] c' recorded.
Proof.
  apply (C7_file_failure_is_logged_and_skipped Examples.BeautifulSoup Examples.re_search
           Examples.index_html "drafts.html" ["curry.html"] (Counters 0 0 0)
           Examples.site Examples.site).
  vm_compute. reflexivity.
Defined.

(** C9: whatever way the run of [main] ends, every path other than the
    report holds afterwards what it held before; in particular every HTML
    file does. *)
Theorem C9_only_the_report_is_written
    (BeautifulSoup : string -> result node)
    (re_search : string -> string -> result (option Re.match_object))
    (w w' : world) (r : result (list string * counters)) :
  main BeautifulSoup re_search w = (w', r) ->
  (forall path, path <> report_path -> fs w' !! path = fs w !! path) /\
  (forall path, Py.endswith ".html" path = true -> fs w' !! path = fs w !! path).
Proof.
  intros Hmain.
  assert (forall path, path <> report_path -> fs w' !! path = fs w !! path) as Hkeep.
  { intros path Hne. by eapply keeps_main. }
  split; [done|]. intros path Hhtml. apply Hkeep. by intros ->.
Qed.

Lemma C9_witness :
  let w' := fst (main Examples.BeautifulSoup Examples.re_search Examples.site) in
  (forall path, path <> report_path -> fs w' !! path = fs Examples.site !! path) /\
  (forall path, Py.endswith ".html" path = true -> fs w' !! path = fs Examples.site !! path).
Proof.
  apply (C9_only_the_report_is_written Examples.BeautifulSoup Examples.re_search
           Examples.site
           (fst (main Examples.BeautifulSoup Examples.re_search Examples.site))
           (snd (main Examples.BeautifulSoup Examples.re_search Examples.site))).
  vm_compute. reflexivity.
Defined.

(** C10, amended: when the tags section that the loop of lines 18-21 stops
    at (the first later sibling div of the parent of the first marker
    string that has one) holds no span with [inline-flex] in its class
    whose stripped text is not empty, the extraction returns the empty
    list, not None, the computed string is empty, and the recipe is never
    given ERROR: it gets MATCH or MISMATCH as soon as the index lookup
    returns. *)
Theorem C10_empty_tags_section_is_compared
    (BeautifulSoup : string -> result node)
    (re_search : string -> string -> result (option Re.match_object))
    (index_content recipe_file content : string) (soup tags_section : node)
    (c : counters) (w : world) :
  fs w !! recipe_file = Some (Text content) ->
  BeautifulSoup content = Ok soup ->
  find_tags_section soup (markers soup) = Some tags_section ->
  (forall span, span ∈ find_all_tag tags_section "span" is_tag_class ->
                Py.strip (get_text span) = "") ->
  extract_tags_from_recipe_page BeautifulSoup recipe_file w = (w, Ok (Some [])) /\
  formatted_data_tags [] = "" /\
  (forall w' st c',
     analyze_recipe BeautifulSoup re_search index_content recipe_file c w = (w', Ok (st, c')) ->
     st <> ERROR /\ errors c' = errors c) /\
  (forall current,
     extract_current_tags_from_index re_search index_content
       (Py.replace ".html" "" recipe_file) = Ok current ->
     exists w' st c',
       analyze_recipe BeautifulSoup re_search index_content recipe_file c w
         = (w', Ok (st, c')) /\
       (st = MATCH \/ st = MISMATCH) /\
       (st = MATCH <-> current = Some "")).
Proof.
  intros Hf Hp Hsec Hempty.
  assert (collect_tags tags_section = []) as Hnone.
  { unfold collect_tags.
    induction (find_all_tag tags_section "span" is_tag_class) as [|span spans IH]; [done|].
    cbn. rewrite (Hempty span) by apply list_elem_of_here. cbn.
    apply IH. intros x Hx. apply Hempty. by apply list_elem_of_further. }
  assert (forall w0, fs w0 = fs w ->
            extract_tags_from_recipe_page BeautifulSoup recipe_file w0 = (w0, Ok (Some [])))
    as Hex.
  { intros w0 Hfs. rewrite (extract_parsed _ _ _ content soup); [|by rewrite Hfs|done].
    by rewrite Hsec, <- Hnone. }
  split; [by apply Hex|]. split; [done|]. split.
  - intros w' st c'.
    destruct (extract_current_tags_from_index re_search index_content
                (Py.replace ".html" "" recipe_file)) as [current|e] eqn:Hidx.
    + erewrite analyze_compared; [|by apply Hex|exact Hidx].
      destruct (decide _); by intros [= <- <- <-].
    + erewrite analyze_raises; [done|by apply Hex|exact Hidx].
  - intros current Hidx.
    erewrite analyze_compared; [|by apply Hex|exact Hidx].
    change (formatted_data_tags []) with "".
    destruct (decide (current = Some "")) as [Heq|Hne].
    + eexists _, MATCH, _. split; [done|]. split; [by left|done].
    + eexists _, MISMATCH, _. split; [done|]. split; [by right|done].
Qed.

(** * The header rewriter *)

Import UpdateHeaders.

Lemma pattern_compiles : Re.compile true pattern = Some header_regex.
Proof. vm_compute. reflexivity. Qed.

(** The new header is its own replacement text: its only backslashes stand
    before exclamation marks. *)
Lemma template_new_header : Re.template NEW_HEADER = Some NEW_HEADER.
Proof. vm_compute. reflexivity. Qed.

(** ** Slices and occurrences *)

Lemma take_drop n s : Py.take n s +:+ Py.drop n s = s.
Proof.
  revert n. induction s as [|c s IH]; intros [|n]; try reflexivity.
  change (String c (Py.take n s +:+ Py.drop n s) = String c s). by rewrite IH.
Qed.

Lemma drop_drop a b s : Py.drop (a + b) s = Py.drop b (Py.drop a s).
Proof.
  revert s. induction a as [|a IH]; intros s; [done|].
  destruct s as [|c s]; cbn; [by destruct b|]. apply IH.
Qed.

Lemma length_drop n s : String.length (Py.drop n s) = String.length s - n.
Proof.
  revert n. induction s as [|c s IH]; intros [|n]; cbn; auto.
Qed.

Lemma startswith_length p s :
  Py.startswith p s = true -> String.length p <= String.length s.
Proof.
  revert s. induction p as [|a p IH]; intros [|b s]; cbn; try done; [lia|].
  destruct (decide (a = b)); [|done]. intros H%IH. lia.
Qed.

Lemma find_Some sub s i :
  Py.find sub s = Some i ->
  Py.startswith sub (Py.drop i s) = true /\
  (forall m, m < i -> Py.startswith sub (Py.drop m s) = false) /\
  i + String.length sub <= String.length s.
Proof.
  revert i. induction s as [|c s IH]; intros i; cbn [Py.find].
  - destruct (Py.startswith sub "") eqn:Hs; [|done].
    intros [= <-]. repeat split; [done|lia|]. apply startswith_length in Hs. cbn in *. lia.
  - destruct (Py.startswith sub (String c s)) eqn:Hs.
    + intros [= <-]. repeat split; [done|lia|]. apply startswith_length in Hs. cbn in *. lia.
    + destruct (Py.find sub s) as [j|]; [|done]. intros [= <-].
      destruct (IH j eq_refl) as (H1 & H2 & H3). repeat split; [done| |cbn; lia].
      intros [|m] Hm; [done|]. apply H2. lia.
Qed.

Lemma find_None sub s :
  Py.find sub s = None <-> forall m, Py.startswith sub (Py.drop m s) = false.
Proof.
  induction s as [|c s IH]; cbn [Py.find].
  - destruct (Py.startswith sub "") eqn:Hs.
    + split; [done|]. intros H. specialize (H 0). cbn in H. congruence.
    + split; [|done]. intros _ [|m]; done.
  - destruct (Py.startswith sub (String c s)) eqn:Hs.
    + split; [done|]. intros H. specialize (H 0). cbn in H. congruence.
    + destruct (Py.find sub s) as [j|] eqn:Hf; cbn.
      * split; [done|]. intros H.
        assert (Some j = None) as Hj; [|done].
        apply IH. intros m. apply (H (S m)).
      * split; [|done]. intros _ [|m]; [done|]. cbn. by apply IH.
Qed.

Lemma find_drop_None sub s m :
  Py.find sub s = None -> Py.find sub (Py.drop m s) = None.
Proof.
  rewrite !find_None. intros H n. rewrite <- drop_drop. apply H.
Qed.

(** ** The matcher on a literal, then anything, then a literal *)

Section LazySpan.
Variables opening closing : string.

Lemma matcher_lits {R} text tail s cs (k : string -> Re.captures -> option R) :
  Re.matcher (Re.lits text tail) s cs k =
    if Py.startswith text s
    then Re.matcher tail (Py.drop (String.length text) s) cs k
    else None.
Proof.
  revert s. induction text as [|a text IH]; intros s; [done|].
  destruct s as [|b s]; cbn [Re.lits Re.matcher Py.startswith]; [done|].
  destruct (decide (b = a)) as [->|Hne].
  - rewrite decide_True by done. apply IH.
  - by rewrite decide_False by congruence.
Qed.

(** The lazy star stops at the first place where the closing text
    stands. *)
Lemma lazy_any_until cs fuel s :
  String.length s <= fuel ->
  Re.star_loop true (Re.matcher Re.Any)
    (fun s' cs' => Re.matcher (Re.lits closing Re.Eps) s' cs'
                     (fun s'' cs'' => Some (s'', cs'')))
    fuel s cs =
    match Py.find closing s with
    | Some j => Some (Py.drop (j + String.length closing) s, cs)
    | None => None
    end.
Proof.
  revert s. induction fuel as [|fuel IH]; intros s Hlen.
  - destruct s; [|cbn in Hlen; lia].
    cbn [Re.star_loop Py.find]. rewrite matcher_lits.
    by destruct (Py.startswith closing "").
  - destruct s as [|c s]; cbn [Re.star_loop Py.find]; rewrite matcher_lits.
    + by destruct (Py.startswith closing "").
    + destruct (Py.startswith closing (String c s)); [done|].
      cbn [Re.matcher]. rewrite (proj2 (Nat.ltb_lt _ _)) by (cbn; lia).
      rewrite IH by (cbn in Hlen; lia).
      by destruct (Py.find closing s).
Qed.

Lemma match_at_span s :
  Re.match_at (Re.span opening closing) s =
    if Py.startswith opening s
    then match Py.find closing (Py.drop (String.length opening) s) with
         | Some j =>
             Some (Py.drop (j + String.length closing)
                     (Py.drop (String.length opening) s), [])
         | None => None
         end
    else None.
Proof.
  unfold Re.match_at, Re.span. rewrite matcher_lits.
  destruct (Py.startswith opening s); [|done].
  cbn [Re.matcher]. by apply lazy_any_until.
Qed.

End LazySpan.

(** ** Substitution, one step at a time *)

Section Substitution.
Variables (r : Re.regex) (repl : string).

Lemma sub_skip k s :
  k <= String.length s ->
  Re.sub_from r repl k s = Re.sub_from r repl 0 (Py.drop k s).
Proof.
  revert k. induction s as [|c s IH]; intros [|k] Hk; try done.
  - cbn in Hk. lia.
  - cbn [Re.sub_from Py.drop]. apply IH. cbn in Hk. lia.
Qed.

Lemma sub_no_match_here c s :
  Re.match_at r (String c s) = None ->
  Re.sub_from r repl 0 (String c s) = String c (Re.sub_from r repl 0 s).
Proof. intros H. cbn [Re.sub_from]. by rewrite H. Qed.

Lemma sub_match_here s n cs :
  Re.match_at r s = Some (Py.drop n s, cs) ->
  0 < n <= String.length s ->
  Re.sub_from r repl 0 s = repl +:+ Re.sub_from r repl 0 (Py.drop n s).
Proof.
  intros H [Hpos Hlen]. destruct s as [|c s]; [cbn in Hlen; lia|].
  cbn [Re.sub_from]. rewrite H, length_drop.
  replace (String.length (String c s) - (String.length (String c s) - n)) with n by lia.
  destruct n as [|k]; [lia|]. cbn [Py.drop].
  rewrite sub_skip; [done|]. cbn in Hlen. lia.
Qed.

Lemma sub_before_match i s :
  (forall m, m < i -> Re.match_at r (Py.drop m s) = None) ->
  i <= String.length s ->
  Re.sub_from r repl 0 s = Py.take i s +:+ Re.sub_from r repl 0 (Py.drop i s).
Proof.
  revert s. induction i as [|i IH]; intros s Hno Hlen; [done|].
  destruct s as [|c s]; [cbn in Hlen; lia|].
  rewrite sub_no_match_here by apply (Hno 0), Nat.lt_0_succ.
  cbn [Py.take Py.drop].
  change (String c (Py.take i s) +:+ ?x) with (String c (Py.take i s +:+ x)).
  f_equal. apply IH; [|cbn in Hlen; lia].
  intros m Hm. apply (Hno (S m)). lia.
Qed.

Lemma sub_no_match s :
  (forall m, Re.match_at r (Py.drop m s) = None) ->
  Re.sub_from r repl 0 s = s.
Proof.
  induction s as [|c s IH]; intros Hno.
  - specialize (Hno 0). cbn in Hno. cbn [Re.sub_from]. by rewrite Hno.
  - rewrite sub_no_match_here by apply (Hno 0). f_equal.
    apply IH. intros m. apply (Hno (S m)).
Qed.

End Substitution.

(** ** The rewriting of one page *)

Lemma new_content_sub content :
  new_content content = Ok (Re.sub_from header_regex NEW_HEADER 0 content).
Proof. unfold new_content. by rewrite pattern_compiles, template_new_header. Qed.

Lemma match_at_header s :
  Re.match_at header_regex s =
    if Py.startswith "<body>" s
    then match Py.find marker_div (Py.drop 6 s) with
         | Some j => Some (Py.drop (6 + (j + String.length marker_div)) s, [])
         | None => None
         end
    else None.
Proof.
  unfold header_regex. rewrite match_at_span.
  destruct (Py.startswith "<body>" s); [|done].
  change (String.length "<body>") with 6.
  destruct (Py.find marker_div (Py.drop 6 s)) as [j|]; [|done].
  by rewrite <- drop_drop.
Qed.

(** No match anywhere: the first [<body>] is missing, or no marker div
    follows it. *)
Lemma no_header_match content :
  match Py.find "<body>" content with
  | Some i => Py.find marker_div (Py.drop (i + 6) content) = None
  | None => True
  end ->
  forall m, Re.match_at header_regex (Py.drop m content) = None.
Proof.
  intros H m. rewrite match_at_header.
  destruct (Py.startswith "<body>" (Py.drop m content)) eqn:Hm; [|done].
  destruct (Py.find "<body>" content) as [i|] eqn:Hi.
  - destruct (find_Some _ _ _ Hi) as (_ & Hbefore & _).
    assert (i <= m) as Hle.
    { destruct (Nat.le_gt_cases i m) as [|Hlt]; [done|].
      rewrite (Hbefore m Hlt) in Hm. done. }
    replace (Py.drop 6 (Py.drop m content))
      with (Py.drop (m - i) (Py.drop (i + 6) content)).
    + by rewrite find_drop_None.
    + rewrite <- !drop_drop. f_equal. lia.
  - rewrite find_None in Hi. by rewrite Hi in Hm.
Qed.

(** ** Search, from the matches at each position *)

Lemma search_from_found r i : forall s k rest cs,
  (forall m, m < i -> Re.match_at r (Py.drop m s) = None) ->
  Re.match_at r (Py.drop i s) = Some (rest, cs) ->
  i <= String.length s ->
  Re.search_from r k s = Some (k + i, rest, cs).
Proof.
  induction i as [|i IH]; intros s k rest cs Hno Hyes Hlen.
  - cbn in Hyes. destruct s; cbn [Re.search_from]; rewrite Hyes; do 3 f_equal; lia.
  - destruct s as [|c s]; [cbn in Hlen; lia|].
    pose proof (Hno 0 (Nat.lt_0_succ i)) as H0. cbn [Py.drop] in H0.
    cbn [Re.search_from]. rewrite H0.
    rewrite (IH s (S k) rest cs); [do 3 f_equal; lia| |done|cbn in Hlen; lia].
    intros m Hm. apply (Hno (S m)). lia.
Qed.

Lemma search_from_none r : forall s k,
  (forall m, Re.match_at r (Py.drop m s) = None) ->
  Re.search_from r k s = None.
Proof.
  induction s as [|c s IH]; intros k Hno; pose proof (Hno 0) as H0;
    cbn [Py.drop] in H0; cbn [Re.search_from]; rewrite H0; [done|].
  apply IH. intros m. apply (Hno (S m)).
Qed.

(** C3, amended: when the content holds [<body>] and, after the first one,
    the marker div, the content written back is the original content before
    that [<body>], then NEW_HEADER, then what followed the matched span with
    the same substitution applied to it; when there is no match the content
    written back is the original content.  The file then holds exactly the
    new content. *)
Theorem C3_header_replaced_where_it_stands (content : string) :
  (forall i j,
     Py.find "<body>" content = Some i ->
     Py.find marker_div (Py.drop (i + 6) content) = Some j ->
     let rest := Py.drop (i + (6 + (j + String.length marker_div))) content in
     Re.search header_regex content = Some (i, rest, []) /\
     exists tail,
       new_content rest = Ok tail /\
       new_content content = Ok (Py.take i content +:+ NEW_HEADER +:+ tail)) /\
  (match Py.find "<body>" content with
   | Some i => Py.find marker_div (Py.drop (i + 6) content) = None
   | None => True
   end ->
   Re.search header_regex content = None /\ new_content content = Ok content) /\
  (forall w file_path new,
     fs w !! file_path = Some (Text content) ->
     new_content content = Ok new ->
     exists w', update_file file_path w = (w', Ok tt) /\
                fs w' = <[file_path := Text new]> (fs w)).
Proof.
  split; [|split].
  - intros i j Hi Hj rest.
    destruct (find_Some _ _ _ Hi) as (Hbody & Hbefore & Hilen).
    destruct (find_Some _ _ _ Hj) as (_ & _ & Hjlen).
    rewrite length_drop in Hjlen. change (String.length "<body>") with 6 in Hilen.
    assert (forall m, m < i -> Re.match_at header_regex (Py.drop m content) = None) as Hno.
    { intros m Hm. rewrite match_at_header. by rewrite (Hbefore m Hm). }
    assert (Re.match_at header_regex (Py.drop i content) = Some (rest, [])) as Hyes.
    { rewrite match_at_header, Hbody, <- drop_drop, Hj. unfold rest.
      by rewrite <- drop_drop. }
    split.
    + unfold Re.search. rewrite (search_from_found _ i _ 0 rest []); [done..|lia].
    + exists (Re.sub_from header_regex NEW_HEADER 0 rest).
      split; [apply new_content_sub|]. rewrite new_content_sub. f_equal.
      rewrite (sub_before_match _ _ i) by (done || lia). f_equal.
      rewrite (sub_match_here _ _ _ (6 + (j + String.length marker_div)) []).
      * unfold rest. by rewrite <- drop_drop.
      * rewrite Hyes. unfold rest. by rewrite <- drop_drop.
      * rewrite length_drop. lia.
  - intros Hnone. pose proof (no_header_match content Hnone) as Hno. split.
    + by apply search_from_none.
    + rewrite new_content_sub. f_equal. by apply sub_no_match.
  - intros w file_path new Hf Hnew.
    unfold update_file, bind, print, read_text, lift, open_w, write, printed, written.
    cbn [fs stdout]. rewrite Hf, Hnew. cbn [fs stdout]. rewrite Hf. cbn [fs stdout].
    eexists. split; [done|]. cbn [fs].
    by rewrite lookup_insert_eq, insert_insert_eq.
Qed.

Lemma C3_witness :
  (let rest := Py.drop (6 + (6 + (10 + String.length marker_div))) Examples.old_page in
   Re.search header_regex Examples.old_page = Some (6, rest, []) /\
   exists tail,
     new_content rest = Ok tail /\
     new_content Examples.old_page
       = Ok (Py.take 6 Examples.old_page +:+ NEW_HEADER +:+ tail)) /\
  (Re.search header_regex "<html><body>About</body></html>" = None /\
   new_content "<html><body>About</body></html>" = Ok "<html><body>About</body></html>") /\
  (exists w', update_file (site_dir +:+ "curry.html") Examples.rewriter_site = (w', Ok tt) /\
              fs w' = <[site_dir +:+ "curry.html" :=
                          Text ("<html>" +:+ NEW_HEADER +:+ "</div></body></html>")]>
                        (fs Examples.rewriter_site)).
Proof.
  split; [|split].
  - apply (proj1 (C3_header_replaced_where_it_stands Examples.old_page) 6 10).
    + vm_compute. reflexivity.
    + vm_compute. reflexivity.
  - apply (proj1 (proj2 (C3_header_replaced_where_it_stands
                           "<html><body>About</body></html>"))).
    vm_compute. reflexivity.
  - apply (proj2 (proj2 (C3_header_replaced_where_it_stands Examples.old_page))
             Examples.rewriter_site).
    + vm_compute. reflexivity.
    + vm_compute. reflexivity.
Defined.

(** C3 as stated fails: the page matches, but what is written back keeps
    the text before [<body>], so it is not NEW_HEADER followed by what came
    after the matched span. *)
Lemma C3_counterexample_text_before_body :
  Re.search header_regex Examples.old_page = Some (6, "</div></body></html>", []) /\
  new_content Examples.old_page
    = Ok ("<html>" +:+ NEW_HEADER +:+ "</div></body></html>") /\
  new_content Examples.old_page <> Ok (NEW_HEADER +:+ "</div></body></html>").
Proof.
  split; [by vm_compute|]. split; [by vm_compute|].
  vm_compute. discriminate.
Qed.

(** C8: the code at a page whose name only ends in the name of an excluded
    page: the glob finds it, it is neither of the two excluded pages, the
    suffix test drops it and the run leaves it as it was, while another
    page of the directory is rewritten. *)
Theorem C8_suffix_test_drops_a_third_page :
  let p := site_dir +:+ "garlic-sesame-green-beans.html" in
  glob_matches site_dir p = true /\
  p <> site_dir +:+ "index.html" /\
  p <> site_dir +:+ "sesame-green-beans.html" /\
  selected p = false /\
  snd (html_files Examples.rewriter_site)
    = Ok [site_dir +:+ "curry.html"; site_dir +:+ "about.html"] /\
  fs (fst (update_headers Examples.rewriter_site)) !! p = Some (Text Examples.old_page) /\
  fs (fst (update_headers Examples.rewriter_site)) !! (site_dir +:+ "curry.html")
    = Some (Text ("<html>" +:+ NEW_HEADER +:+ "</div></body></html>")).
Proof.
  repeat split; try by vm_compute.
Qed.

Lemma C10_witness :
  extract_tags_from_recipe_page Cases.BeautifulSoup "blank.html" Cases.sections_site
    = (Cases.sections_site, Ok (Some [])) /\
  formatted_data_tags [] = "" /\
  (forall w' st c',
     analyze_recipe Cases.BeautifulSoup Examples.re_search Examples.index_html
       "blank.html" (Counters 0 0 0) Cases.sections_site = (w', Ok (st, c')) ->
     st <> ERROR /\ errors c' = errors (Counters 0 0 0)) /\
  (forall current,
     extract_current_tags_from_index Examples.re_search Examples.index_html
       (Py.replace ".html" "" "blank.html") = Ok current ->
     exists w' st c',
       analyze_recipe Cases.BeautifulSoup Examples.re_search Examples.index_html
         "blank.html" (Counters 0 0 0) Cases.sections_site = (w', Ok (st, c')) /\
       (st = MATCH \/ st = MISMATCH) /\
       (st = MATCH <-> current = Some "")).
Proof.
  apply (C10_empty_tags_section_is_compared Cases.BeautifulSoup Examples.re_search
           Examples.index_html "blank.html" Cases.blank_html Cases.blank_soup
           (Tag "div" None
              [ Tag "span" (Some ["inline-flex"]) [ NavigableString Plain Cases.nbsp ] ])).
  - vm_compute. reflexivity.
  - vm_compute. reflexivity.
  - vm_compute. reflexivity.
  - intros span Hspan.
    apply list_elem_of_singleton in Hspan as ->. vm_compute. reflexivity.
Defined.

(** C10 as stated fails: the second marker comment of this page has a
    parent whose next sibling div holds no span with [inline-flex], yet the
    extraction returns the tag of the div after the first marker, not the
    empty list. *)
Lemma C10_counterexample_second_marked_section :
  ([2; 0], NavigableString Comment " Tags Section ") ∈ descendants Cases.two_sections_soup /\
  is_tags_marker " Tags Section " = true /\
  find_next_sibling Cases.two_sections_soup (find_parent [2; 0]) "div"
    = Some (Tag "div" None [ Tag "span" (Some ["badge"]) [ NavigableString Plain "soon" ] ]) /\
  find_all_tag (Tag "div" None [ Tag "span" (Some ["badge"]) [ NavigableString Plain "soon" ] ])
    "span" is_tag_class = [] /\
  fs Cases.sections_site !! "two.html" = Some (Text Cases.two_sections_html) /\
  Cases.BeautifulSoup Cases.two_sections_html = Ok Cases.two_sections_soup /\
  extract_tags_from_recipe_page Cases.BeautifulSoup "two.html" Cases.sections_site
    = (Cases.sections_site, Ok (Some ["Vegan"])) /\
  snd (analyze_recipe Cases.BeautifulSoup Examples.re_search Examples.index_html
         "two.html" (Counters 0 0 0) Cases.sections_site)
    = Ok (MISMATCH, Counters 1 0 0).
Proof.
  split.
  { apply list_elem_of_In. vm_compute. tauto. }
  repeat split; by vm_compute.
Qed.

(** * Further properties of the tag auditor *)

(** ** White space at the ends of a tag *)

Lemma rstrip_idem s : Py.rstrip (Py.rstrip s) = Py.rstrip s.
Proof.
  induction s as [|c s IH]; [done|]. cbn [Py.rstrip].
  destruct (Py.rstrip s) as [|d r] eqn:Hr.
  - destruct (Py.isspace c) eqn:Hc; [done|]. cbn [Py.rstrip]. by rewrite Hc.
  - change (Py.rstrip (String c (String d r))) with
      (match Py.rstrip (String d r) with
       | "" => if Py.isspace c then "" else String c ""
       | x => String c x
       end).
    by rewrite IH.
Qed.

Lemma lstrip_head s :
  Py.lstrip s = "" \/ exists c r, Py.lstrip s = String c r /\ Py.isspace c = false.
Proof.
  induction s as [|c s IH]; [by left|]. cbn [Py.lstrip].
  destruct (Py.isspace c) eqn:Hc; [done|]. right. eauto.
Qed.

Lemma lstrip_rstrip_head c r :
  Py.isspace c = false -> Py.lstrip (Py.rstrip (String c r)) = Py.rstrip (String c r).
Proof.
  intros Hc. cbn [Py.rstrip].
  destruct (Py.rstrip r); rewrite ?Hc; cbn [Py.lstrip]; by rewrite Hc.
Qed.

Lemma strip_idem s : Py.strip (Py.strip s) = Py.strip s.
Proof.
  unfold Py.strip.
  destruct (lstrip_head s) as [->|(c & r & -> & Hc)]; [done|].
  by rewrite lstrip_rstrip_head, rstrip_idem.
Qed.

Lemma collect_tags_stripped tags_section t :
  t ∈ collect_tags tags_section -> t <> "" /\ Py.strip t = t.
Proof.
  unfold collect_tags.
  rewrite list_elem_of_In, filter_In, in_map_iff.
  intros [(span & <- & _) Hne]. split.
  - intros Heq. rewrite Heq in Hne. done.
  - apply strip_idem.
Qed.

(** The no-break spaces that [&nbsp;] leaves around a tag are stripped
    with the other white space. *)
Lemma strip_no_break_space :
  Py.strip (Cases.nbsp +:+ " Spicy" +:+ Cases.nbsp +:+ Py.nl) = "Spicy".
Proof. reflexivity. Qed.

(** X1: every tag the extraction returns is non-empty and has no white
    space at either end. *)
Theorem X1_extracted_tags_are_stripped
    (BeautifulSoup : string -> result node)
    (file_path : string) (w w' : world) (tags : list string) :
  extract_tags_from_recipe_page BeautifulSoup file_path w = (w', Ok (Some tags)) ->
  forall t, t ∈ tags -> t <> "" /\ Py.strip t = t.
Proof.
  rewrite extract_cases.
  destruct (read_and_parse BeautifulSoup file_path w) as [w1 [soup|e]]; [|done].
  destruct (find_tags_section soup (markers soup)) as [tags_section|]; [|done].
  intros [= _ <-] t. apply collect_tags_stripped.
Qed.

Lemma X1_witness : "Main Course" <> "" /\ Py.strip "Main Course" = "Main Course".
Proof.
  apply (X1_extracted_tags_are_stripped Examples.BeautifulSoup "curry.html"
           Examples.site Examples.site ["Main Course"; "Spicy"]).
  - vm_compute. reflexivity.
  - apply list_elem_of_here.
Defined.

(** X2: the extraction never raises.  When the page is read and parsed it
    leaves the world as it is, printing nothing, and returns the tags of the
    section found or None; when reading or parsing raises [e] it prints the
    one line "Error processing <file>: <e>", changes no file and returns
    None. *)
Theorem X2_extraction_never_raises
    (BeautifulSoup : string -> result node) (file_path : string) (w : world) :
  (exists w' tags, extract_tags_from_recipe_page BeautifulSoup file_path w = (w', Ok tags)) /\
  (forall content soup,
     fs w !! file_path = Some (Text content) ->
     BeautifulSoup content = Ok soup ->
     extract_tags_from_recipe_page BeautifulSoup file_path w
       = (w, Ok (collect_tags <$> find_tags_section soup (markers soup)))) /\
  (forall w0 e,
     read_and_parse BeautifulSoup file_path w = (w0, Raise e) ->
     extract_tags_from_recipe_page BeautifulSoup file_path w
       = (World (fs w) (stdout w ++ ["Error processing " +:+ file_path +:+ ": " +:+ e]),
          Ok None)).
Proof.
  split; [|split].
  - destruct (extract_returns BeautifulSoup file_path w) as (w' & tags & H & _). eauto.
  - intros content soup Hf Hp. by apply (extract_parsed _ _ _ content).
  - intros w0 e Hraise. by rewrite (extract_failed _ _ _ _ _ Hraise).
Qed.

Lemma X2_witness :
  extract_tags_from_recipe_page Examples.BeautifulSoup "curry.html" Examples.site
    = (Examples.site,
       Ok (collect_tags <$> find_tags_section Examples.curry_soup (markers Examples.curry_soup))) /\
  extract_tags_from_recipe_page Examples.BeautifulSoup "drafts.html" Examples.site
    = (World (fs Examples.site)
             (stdout Examples.site
                ++ ["Error processing " +:+ "drafts.html" +:+ ": "
                      +:+ "[Errno 21] Is a directory: 'drafts.html'"]),
       Ok None).
Proof.
  split.
  - apply (proj1 (proj2 (X2_extraction_never_raises Examples.BeautifulSoup "curry.html"
                           Examples.site)) Examples.curry_html Examples.curry_soup).
    + vm_compute. reflexivity.
    + vm_compute. reflexivity.
  - apply (proj2 (proj2 (X2_extraction_never_raises Examples.BeautifulSoup "drafts.html"
                           Examples.site)) Examples.site).
    vm_compute. reflexivity.
Defined.

(** ** The recipe name of a file *)

Lemma app_cons c a b : String c a +:+ b = String c (a +:+ b).
Proof. reflexivity. Qed.

Lemma contains_cons sub c s :
  Py.contains sub (String c s) = false ->
  Py.startswith sub (String c s) = false /\ Py.contains sub s = false.
Proof. cbn [Py.contains]. by intros [? ?]%orb_false_elim. Qed.

(** No occurrence of [.html] begins in a stem without one and ends in the
    extension. *)
Lemma no_html_across c s :
  Py.startswith ".html" (String c s) = false ->
  Py.startswith ".html" (String c s +:+ ".html") = false.
Proof.
  destruct s as [|c1 [|c2 [|c3 [|c4 rest]]]]; rewrite ?app_cons;
    change ("" +:+ ".html") with ".html"; cbn [Py.startswith];
    repeat (case_decide; try done); simplify_eq.
Qed.

(** X3: a file called [stem.html] whose stem holds no [.html] of its own is
    given the recipe name [stem]: that is the name in its progress line and
    in the pattern searched in the index. *)
Theorem X3_recipe_name_is_the_stem (stem : string) (w : world) :
  Py.contains ".html" stem = false ->
  Py.replace ".html" "" (stem +:+ ".html") = stem /\
  announced (stem +:+ ".html") w = printed ("Analyzing " +:+ stem +:+ "...") w.
Proof.
  intros Hstem.
  assert (Py.replace ".html" "" (stem +:+ ".html") = stem) as Hname.
  { unfold Py.replace. induction stem as [|c s IH]; [done|].
    apply contains_cons in Hstem as [Hhere Hlater].
    rewrite app_cons. cbn [Py.replace_from].
    rewrite <- app_cons, (no_html_across _ _ Hhere). by rewrite IH. }
  split; [done|]. unfold announced. by rewrite Hname.
Qed.

Lemma X3_witness :
  Py.replace ".html" "" ("sesame-green-beans" +:+ ".html") = "sesame-green-beans" /\
  announced ("sesame-green-beans" +:+ ".html") Examples.site
    = printed ("Analyzing " +:+ "sesame-green-beans" +:+ "...") Examples.site.
Proof.
  apply (X3_recipe_name_is_the_stem "sesame-green-beans" Examples.site).
  vm_compute. reflexivity.
Defined.

(** ** What the computed string says about the tags *)

Lemma hyphenate_no_space s : Py.contains " " (SpecWords.hyphenate s) = false.
Proof.
  induction s as [|c s IH]; [done|]. cbn [SpecWords.hyphenate Py.contains Py.startswith].
  rewrite IH. destruct (decide (c = " "%char)); [done|].
  by rewrite decide_False by congruence.
Qed.

Lemma no_space_cons c s :
  Py.contains " " (String c s) = false -> c <> " "%char /\ Py.contains " " s = false.
Proof.
  cbn [Py.contains Py.startswith]. destruct (decide (" "%char = c)); [done|].
  intros H. split; [congruence|done].
Qed.

(** Two texts that agree after a first word agree on the word. *)
Lemma first_word_inj x y a b :
  Py.contains " " x = false -> Py.contains " " y = false ->
  x +:+ " " +:+ a = y +:+ " " +:+ b -> x = y /\ a = b.
Proof.
  revert y. induction x as [|c x IH]; intros [|d y] Hx Hy Heq.
  - by injection Heq.
  - apply no_space_cons in Hy as [Hd _]. by injection Heq.
  - apply no_space_cons in Hx as [Hc _]. by injection Heq.
  - apply no_space_cons in Hx as [_ Hx]. apply no_space_cons in Hy as [_ Hy].
    rewrite !app_cons in Heq. injection Heq as -> Heq.
    destruct (IH y Hx Hy Heq) as [-> ->]. done.
Qed.

Lemma space_join_inj (l1 l2 : list string) :
  Forall (fun t => t <> "" /\ Py.contains " " t = false) l1 ->
  Forall (fun t => t <> "" /\ Py.contains " " t = false) l2 ->
  SpecWords.space_join l1 = SpecWords.space_join l2 -> l1 = l2.
Proof.
  revert l2. induction l1 as [|x l1 IH]; intros l2 H1 H2 Heq.
  - destruct l2 as [|y [|y2 l2]]; [done|..]; cbn in Heq;
      apply Forall_cons in H2 as [[Hy _] _]; destruct y; done.
  - apply Forall_cons in H1 as [[Hx Hxs] H1].
    destruct l2 as [|y l2].
    { destruct l1; cbn in Heq; destruct x; done. }
    apply Forall_cons in H2 as [[Hy Hys] H2].
    destruct l1 as [|x2 l1], l2 as [|y2 l2].
    + cbn in Heq. by subst.
    + cbn [SpecWords.space_join] in Heq. subst x.
      exfalso. clear -Hxs. induction y as [|c y IH]; [done|].
      rewrite app_cons in Hxs. apply no_space_cons in Hxs as [_ Hxs]. auto.
    + cbn [SpecWords.space_join] in Heq. subst y.
      exfalso. clear -Hys. induction x as [|c x IH]; [done|].
      rewrite app_cons in Hys. apply no_space_cons in Hys as [_ Hys]. auto.
    + change (x +:+ " " +:+ SpecWords.space_join (x2 :: l1)
              = y +:+ " " +:+ SpecWords.space_join (y2 :: l2)) in Heq.
      apply first_word_inj in Heq as [-> Heq]; [|done..].
      f_equal. by apply IH.
Qed.

Lemma lower_not_empty t : t <> "" -> Py.lower t <> "".
Proof. by destruct t. Qed.

Lemma hyphenate_not_empty t : t <> "" -> SpecWords.hyphenate t <> "".
Proof. by destruct t. Qed.

(** X4: a tag becomes one word of the computed string, without a space; so
    two lists of non-empty tags with the same computed string give, tag by
    tag, the same words: they are the same list up to what lower-casing and
    writing spaces as hyphens make equal. *)
Theorem X4_computed_string_determines_the_tags (T1 T2 : list string) :
  Forall (fun t => t <> "") T1 ->
  Forall (fun t => t <> "") T2 ->
  formatted_data_tags T1 = formatted_data_tags T2 ->
  map (fun t => formatted_data_tags [t]) T1 = map (fun t => formatted_data_tags [t]) T2 /\
  Forall (fun t => Py.contains " " (formatted_data_tags [t]) = false) T1.
Proof.
  intros H1 H2 Heq.
  assert (forall t, formatted_data_tags [t] = SpecWords.normalize_tag t) as Hone.
  { intros t. unfold formatted_data_tags. cbn. apply replace_space_hyphenate. }
  assert (forall T, Forall (fun t => t <> "") T ->
            Forall (fun t => t <> "" /\ Py.contains " " t = false)
                   (map SpecWords.normalize_tag T)) as Hwords.
  { intros T HT. apply Forall_forall. intros u Hu.
    apply list_elem_of_In, in_map_iff in Hu as (t & <- & Ht%list_elem_of_In).
    rewrite Forall_forall in HT. specialize (HT t Ht).
    unfold SpecWords.normalize_tag. split; [|apply hyphenate_no_space].
    by apply hyphenate_not_empty, lower_not_empty. }
  assert (forall T, formatted_data_tags T
                    = SpecWords.space_join (map SpecWords.normalize_tag T)) as Hfmt.
  { intros T. unfold formatted_data_tags. rewrite join_space_join. f_equal.
    apply map_ext. intros t. apply replace_space_hyphenate. }
  split.
  - rewrite (map_ext _ _ Hone T1), (map_ext _ _ Hone T2).
    apply space_join_inj; [by apply Hwords..|].
    by rewrite <- !Hfmt.
  - apply Forall_forall. intros t _. rewrite Hone. apply hyphenate_no_space.
Qed.

Lemma X4_witness :
  map (fun t => formatted_data_tags [t]) ["Main Course"; "Spicy"]
    = map (fun t => formatted_data_tags [t]) ["main-course"; "SPICY"] /\
  Forall (fun t => Py.contains " " (formatted_data_tags [t]) = false)
         ["Main Course"; "Spicy"].
Proof.
  apply (X4_computed_string_determines_the_tags
           ["Main Course"; "Spicy"] ["main-course"; "SPICY"]).
  - repeat constructor; discriminate.
  - repeat constructor; discriminate.
  - vm_compute. reflexivity.
Defined.

(** ** The start of a run *)

(** X5: when the index page cannot be read, [main] raises before it opens
    the report: no file is created or changed and nothing is printed. *)
Theorem X5_unreadable_index_stops_before_the_report
    (BeautifulSoup : string -> result node)
    (re_search : string -> string -> result (option Re.match_object))
    (w : world) :
  (forall index_content, fs w !! "index.html" <> Some (Text index_content)) ->
  exists e, main BeautifulSoup re_search w = (w, Raise e).
Proof.
  intros Hno. unfold main, main_with, bind at 1, read_text.
  destruct (fs w !! "index.html") as [[index_content|e]|] eqn:Hidx.
  - by destruct (Hno index_content).
  - by exists e.
  - by eexists.
Qed.

Lemma X5_witness :
  exists e, main Examples.BeautifulSoup Examples.re_search Cases.no_index_site
            = (Cases.no_index_site, Raise e).
Proof.
  apply (X5_unreadable_index_stops_before_the_report
           Examples.BeautifulSoup Examples.re_search Cases.no_index_site).
  intros index_content. vm_compute. discriminate.
Defined.

(** ** Worlds that a step leaves as they are *)

Lemma read_text_world path w w' r : read_text path w = (w', r) -> w' = w.
Proof.
  unfold read_text. by destruct (fs w !! path) as [[t|e]|]; intros [= <- _].
Qed.

Lemma NoDup_List_filter {A} (f : A -> bool) (l : list A) :
  NoDup l -> NoDup (List.filter f l).
Proof.
  induction 1 as [|x l Hx Hl IH]; cbn; [constructor|].
  destruct (f x); [|done]. constructor; [|done].
  rewrite list_elem_of_In, filter_In, <- list_elem_of_In. tauto.
Qed.

(** ** An exception of the index lookup *)

(** X7: the index lookup stands outside the [try]: when [re.search] raises
    on the pattern of a file whose tags were extracted, the loop ends with
    that exception; only the progress line of the file has been printed,
    nothing is written to the report for it and the files after it are not
    analyzed. *)
Theorem X7_lookup_exception_ends_the_loop
    (BeautifulSoup : string -> result node)
    (re_search : string -> string -> result (option Re.match_object))
    (index_content recipe_file content : string) (soup tags_section : node)
    (rest : list string) (c : counters) (w : world) (e : exn) :
  fs w !! recipe_file = Some (Text content) ->
  BeautifulSoup content = Ok soup ->
  find_tags_section soup (markers soup) = Some tags_section ->
  re_search (index_pattern (Py.replace ".html" "" recipe_file)) index_content = Raise e ->
  analyze_all BeautifulSoup re_search index_content (recipe_file :: rest) c w
    = (announced recipe_file w, Raise e).
Proof.
  intros Hf Hp Hsec Hre.
  unfold analyze_all. cbn [for_each]. unfold bind at 1 2.
  erewrite analyze_raises; [done| |].
  - rewrite (extract_parsed _ _ _ content soup); [by rewrite Hsec|done..].
  - unfold extract_current_tags_from_index. by rewrite Hre.
Qed.

Lemma X7_witness :
  analyze_all Examples.BeautifulSoup Examples.re_search Examples.index_html
    ("c(.html" :: ["curry.html"]) (Counters 0 0 0) Cases.paren_site
    = (announced "c(.html" Cases.paren_site, Raise "re.error").
Proof.
  apply (X7_lookup_exception_ends_the_loop Examples.BeautifulSoup Examples.re_search
           Examples.index_html "c(.html" Examples.curry_html Examples.curry_soup
           (Tag "div" None
              [ Tag "span" (Some ["inline-flex"; "px-2"]) [ NavigableString Plain " Main Course " ];
                Tag "span" (Some ["inline-flex"]) [ NavigableString Plain "Spicy" ] ])).
  - vm_compute. reflexivity.
  - vm_compute. reflexivity.
  - vm_compute. reflexivity.
  - vm_compute. reflexivity.
Defined.

(** * Further properties of the header rewriter *)

Lemma update_file_cases file_path w :
  update_file file_path w =
    let line := "Processing " +:+ file_path +:+ "..." in
    match fs w !! file_path with
    | Some (Text content) =>
        (World (<[file_path := Text (Re.sub_from header_regex NEW_HEADER 0 content)]> (fs w))
               (stdout w ++ [line]),
         Ok tt)
    | Some (Unreadable e) => (printed line w, Raise e)
    | None => (printed line w, Raise (no_such_file file_path))
    end.
Proof.
  unfold update_file, bind, print, read_text, lift, open_w, write, printed, written.
  cbn [fs stdout].
  destruct (fs w !! file_path) as [[content|e]|] eqn:Hf; [|done..].
  rewrite new_content_sub. cbn [fs stdout]. rewrite Hf. cbn [fs stdout].
  by rewrite lookup_insert_eq, insert_insert_eq.
Qed.

Lemma keeps_update_file path file_path :
  path <> file_path -> keeps path (update_file file_path).
Proof.
  intros Hne w w' r. rewrite update_file_cases. cbn zeta.
  destruct (fs w !! file_path) as [[content|e]|]; intros [= <- _]; cbn;
    by rewrite ?lookup_insert_ne.
Qed.

Lemma keeps_for_each_in {A S} path (l : list A) (body : A -> S -> M S) :
  (forall x s, x ∈ l -> keeps path (body x s)) ->
  forall s, keeps path (for_each l body s).
Proof.
  induction l as [|x rest IH]; intros Hbody s; cbn.
  - apply keeps_ret.
  - apply keeps_bind.
    + apply Hbody, list_elem_of_here.
    + intros s'. apply IH. intros y t Hy. by apply Hbody, list_elem_of_further.
Qed.

(** The files of a run: they are entries of the directory, selected, and
    each is there once. *)
Lemma html_files_cases w :
  html_files w =
    (w, Ok (List.filter selected
              (List.filter (glob_matches site_dir) (fst <$> map_to_list (fs w))))).
Proof. reflexivity. Qed.

Lemma elem_of_html_files w p :
  p ∈ List.filter selected
        (List.filter (glob_matches site_dir) (fst <$> map_to_list (fs w))) <->
  is_Some (fs w !! p) /\ glob_matches site_dir p = true /\ selected p = true.
Proof.
  rewrite list_elem_of_In, !filter_In, <- list_elem_of_In, list_elem_of_fmap. split.
  - intros [[([p' x] & -> & Hx%elem_of_map_to_list) Hg] Hs]. repeat split; [|done..].
    by exists x.
  - intros ([x Hx] & Hg & Hs). repeat split; [|done..].
    exists (p, x). split; [done|]. by apply elem_of_map_to_list.
Qed.

(** X8: however the run of the rewriter ends, a path that the glob does not
    return or that the suffix test drops holds afterwards what it held
    before: the index page, [sesame-green-beans.html], every file that is
    not a visible [.html] entry of the site directory. *)
Theorem X8_rewriter_leaves_unselected_files
    (w w' : world) (r : result unit) (path : string) :
  update_headers w = (w', r) ->
  glob_matches site_dir path = false \/ selected path = false ->
  fs w' !! path = fs w !! path.
Proof.
  intros Hrun Hout. unfold update_headers, bind at 1 in Hrun.
  rewrite html_files_cases in Hrun.
  revert Hrun. apply keeps_bind; [|auto with keeps].
  apply keeps_for_each_in. intros x [] Hx. apply keeps_update_file.
  intros ->. apply elem_of_html_files in Hx as (_ & Hg & Hs).
  destruct Hout; congruence.
Qed.

Lemma X8_witness :
  fs (fst (update_headers Examples.rewriter_site)) !! (site_dir +:+ "index.html")
    = fs Examples.rewriter_site !! (site_dir +:+ "index.html").
Proof.
  apply (X8_rewriter_leaves_unselected_files Examples.rewriter_site
           (fst (update_headers Examples.rewriter_site))
           (snd (update_headers Examples.rewriter_site))
           (site_dir +:+ "index.html")).
  - vm_compute. reflexivity.
  - right. vm_compute. reflexivity.
Defined.

Lemma update_all_rewritten (l : list string) :
  NoDup l ->
  forall w w',
    for_each l (fun file_path (_ : unit) => update_file file_path) tt w = (w', Ok tt) ->
    forall path content,
      path ∈ l ->
      fs w !! path = Some (Text content) ->
      fs w' !! path = Some (Text (Re.sub_from header_regex NEW_HEADER 0 content)).
Proof.
  induction 1 as [|x rest Hx Hrest IH]; intros w w' Hrun path content Hin Hc.
  - by apply elem_of_nil in Hin.
  - cbn [for_each] in Hrun. apply bind_Ok in Hrun as (w1 & [] & Hone & Hrun).
    rewrite update_file_cases in Hone. cbn zeta in Hone.
    apply elem_of_cons in Hin as [->|Hin].
    + rewrite Hc in Hone. injection Hone as <-.
      assert (fs w' !! x = fs (World (<[x := Text (Re.sub_from header_regex NEW_HEADER 0 content)]> (fs w))
                                     (stdout w ++ ["Processing " +:+ x +:+ "..."])) !! x)
        as ->.
      { revert Hrun. apply keeps_for_each_in. intros y [] Hy.
        apply keeps_update_file. by intros ->. }
      cbn. by rewrite lookup_insert_eq.
    + destruct (fs w !! x) as [[cx|e]|] eqn:Hfx; [|done..].
      injection Hone as <-.
      apply (IH _ _ Hrun); [done|]. cbn.
      rewrite lookup_insert_ne; [done|]. by intros ->.
Qed.

(** X9: when the run of the rewriter ends normally, every selected page of
    the site directory holds the rewriting of what it held before the run:
    each page is rewritten once, from its own text. *)
Theorem X9_every_selected_page_is_rewritten
    (w w' : world) (path content : string) :
  update_headers w = (w', Ok tt) ->
  glob_matches site_dir path = true ->
  selected path = true ->
  fs w !! path = Some (Text content) ->
  exists new, new_content content = Ok new /\ fs w' !! path = Some (Text new).
Proof.
  intros Hrun Hg Hs Hc. unfold update_headers in Hrun.
  apply bind_Ok in Hrun as (w0 & files & Hfiles & Hrun).
  rewrite html_files_cases in Hfiles. injection Hfiles as <- <-.
  apply bind_Ok in Hrun as (w1 & [] & Hloop & Hprint).
  injection Hprint as <-.
  exists (Re.sub_from header_regex NEW_HEADER 0 content).
  split; [apply new_content_sub|]. cbn [fs printed].
  apply (update_all_rewritten _ (NoDup_List_filter _ _
           (NoDup_List_filter _ _ (NoDup_fst_map_to_list (fs w)))) _ _ Hloop).
  - apply elem_of_html_files. by rewrite Hc.
  - done.
Qed.

Lemma X9_witness :
  exists new,
    new_content Examples.old_page = Ok new /\
    fs (fst (update_headers Examples.rewriter_site)) !! (site_dir +:+ "curry.html")
      = Some (Text new).
Proof.
  apply (X9_every_selected_page_is_rewritten Examples.rewriter_site
           (fst (update_headers Examples.rewriter_site))
           (site_dir +:+ "curry.html") Examples.old_page).
  - vm_compute. reflexivity.
  - vm_compute. reflexivity.
  - vm_compute. reflexivity.
  - vm_compute. reflexivity.
Defined.

Lemma update_all_raises (l : list string) :
  forall w path e,
    path ∈ l ->
    fs w !! path = Some (Unreadable e) ->
    exists w' e',
      for_each l (fun file_path (_ : unit) => update_file file_path) tt w = (w', Raise e').
Proof.
  induction l as [|x rest IH]; intros w path e Hin He.
  - by apply elem_of_nil in Hin.
  - cbn [for_each]. unfold bind.
    destruct (update_file x w) as [w1 [[]|e1]] eqn:Hone; [|by eexists _, _].
    apply elem_of_cons in Hin as [->|Hin].
    + rewrite update_file_cases, He in Hone. done.
    + destruct (decide (path = x)) as [->|Hne].
      { rewrite update_file_cases, He in Hone. done. }
      apply (IH w1 path e Hin).
      rewrite (keeps_update_file path x Hne _ _ _ Hone). done.
Qed.

(** X10: the rewriter handles no error: when a selected page of the site
    directory cannot be read, the run ends with an exception and never
    prints its closing line. *)
Theorem X10_unreadable_page_ends_the_rewriter
    (w : world) (path : string) (e : exn) :
  glob_matches site_dir path = true ->
  selected path = true ->
  fs w !! path = Some (Unreadable e) ->
  exists w' e',
    update_headers w = (w', Raise e') /\
    (forall line, line ∈ stdout w' -> line ∈ stdout w \/ Py.startswith "Processing " line = true).
Proof.
  intros Hg Hs He. unfold update_headers, bind at 1. rewrite html_files_cases.
  set (l := List.filter selected _).
  destruct (update_all_raises l w path e) as (w' & e' & Hloop).
  { apply elem_of_html_files. by rewrite He. }
  { done. }
  exists w', e'. unfold bind. rewrite Hloop. split; [done|].
  clearbody l. clear -Hloop. revert w Hloop. induction l as [|x rest IH]; intros w Hloop; [done|].
  cbn [for_each] in Hloop. unfold bind in Hloop.
  destruct (update_file x w) as [w1 [[]|e1]] eqn:Hone.
  - intros line Hline. destruct (IH _ Hloop line Hline) as [Hold|Hnew]; [|by right].
    rewrite update_file_cases in Hone. cbn zeta in Hone.
    destruct (fs w !! x) as [[cx|ex]|]; [|done..]. injection Hone as <-. cbn in Hold.
    apply elem_of_app in Hold as [Hold|Hold]; [by left|].
    apply list_elem_of_singleton in Hold as ->. by right.
  - injection Hloop as <- _. intros line Hline.
    rewrite update_file_cases in Hone. cbn zeta in Hone.
    destruct (fs w !! x) as [[cx|ex]|]; [done|..]; injection Hone as <- _; cbn in Hline;
      (apply elem_of_app in Hline as [Hold|Hnew]; [by left|]);
      apply list_elem_of_singleton in Hnew as ->; by right.
Qed.

Lemma X10_witness :
  exists w' e',
    update_headers Cases.locked_site = (w', Raise e') /\
    (forall line, line ∈ stdout w' ->
                  line ∈ stdout Cases.locked_site \/ Py.startswith "Processing " line = true).
Proof.
  apply (X10_unreadable_page_ends_the_rewriter Cases.locked_site
           (site_dir +:+ "locked.html") "[Errno 13] Permission denied").
  - vm_compute. reflexivity.
  - vm_compute. reflexivity.
  - vm_compute. reflexivity.
Defined.

(** * Further properties: which spans are tags *)

Lemma startswith_before_space p a b :
  Py.contains " " p = false ->
  Py.startswith p (a +:+ " " +:+ b) = Py.startswith p a.
Proof.
  revert a. induction p as [|x p IH]; intros a Hp; [done|].
  apply no_space_cons in Hp as [Hx Hp].
  destruct a as [|c a].
  - change ("" +:+ " " +:+ b) with (String " " b). cbn [Py.startswith].
    by rewrite decide_False.
  - rewrite app_cons. cbn [Py.startswith]. destruct (decide (x = c)); [|done].
    by apply IH.
Qed.

Lemma contains_around_space p a b :
  p <> "" -> Py.contains " " p = false ->
  Py.contains p (a +:+ " " +:+ b) = Py.contains p a || Py.contains p b.
Proof.
  intros Hne Hp. induction a as [|c a IH].
  - change ("" +:+ " " +:+ b) with (String " " b). cbn [Py.contains].
    change (String " " b) with ("" +:+ " " +:+ b) at 1.
    rewrite startswith_before_space by done. by destruct p.
  - rewrite app_cons. cbn [Py.contains]. rewrite <- app_cons.
    rewrite startswith_before_space by done. rewrite IH. by rewrite orb_assoc.
Qed.

Lemma contains_join_space p (tokens : list string) :
  p <> "" -> Py.contains " " p = false ->
  Py.contains p (Py.join " " tokens) = existsb (Py.contains p) tokens.
Proof.
  intros Hne Hp. unfold Py.join.
  induction tokens as [|t [|t2 rest] IH].
  - by destruct p.
  - cbn. by rewrite orb_false_r.
  - change (String.concat " " (t :: t2 :: rest))
      with (t +:+ " " +:+ String.concat " " (t2 :: rest)).
    rewrite contains_around_space by done. by rewrite IH.
Qed.

(** X11: a span is taken for a tag exactly when it has a class attribute
    one of whose tokens holds [inline-flex] somewhere in it; the test that
    the library also makes on the joined tokens adds nothing, and a span
    without a class is never taken. *)
Theorem X11_tag_spans_by_class_token (cls : option (list string)) :
  matches_class is_tag_class cls =
    match cls with
    | None => false
    | Some tokens => existsb (Py.contains "inline-flex") tokens
    end.
Proof.
  destruct cls as [tokens|]; [|done]. unfold matches_class.
  assert (forall c, is_tag_class (Some c) = Py.contains "inline-flex" c) as Hc.
  { intros c. unfold is_tag_class. case_bool_decide; [by subst|done]. }
  rewrite Hc, contains_join_space by done.
  assert (existsb (fun t => is_tag_class (Some t)) tokens
          = existsb (Py.contains "inline-flex") tokens) as ->.
  { induction tokens as [|t rest IH]; [done|]. cbn [existsb]. by rewrite Hc, IH. }
  by destruct (existsb _ _).
Qed.

(** * Further properties: the report *)

Import Effects.

Lemma app_assoc_s a b c : (a +:+ b) +:+ c = a +:+ (b +:+ c).
Proof. induction a as [|x a IH]; [done|]. rewrite !app_cons. by rewrite IH. Qed.

Lemma app_empty_r a : a +:+ "" = a.
Proof. induction a as [|x a IH]; [done|]. rewrite app_cons. by rewrite IH. Qed.

Lemma written_lookup_eq path s w t :
  fs w !! path = Some (Text t) ->
  fs (written path s w) !! path = Some (Text (t +:+ s)).
Proof. intros H. unfold written. rewrite H. cbn. by rewrite lookup_insert_eq. Qed.

Lemma unchanged_appends {A} path (m : M A) :
  (forall w w' r, m w = (w', r) -> fs w' = fs w) -> appends_to path m.
Proof.
  intros Hm w w' r t Hrun Ht. exists "". rewrite (Hm _ _ _ Hrun), app_empty_r. done.
Qed.

Lemma appends_ret {A} path (a : A) : appends_to path (ret a).
Proof. apply unchanged_appends. by intros w w' r [= <- _]. Qed.

Lemma appends_lift {A} path (x : result A) : appends_to path (lift x).
Proof. apply unchanged_appends. by intros w w' r [= <- _]. Qed.

Lemma appends_print path line : appends_to path (print line).
Proof. apply unchanged_appends. by intros w w' r [= <- _]. Qed.

Lemma appends_read_text path file_path : appends_to path (read_text file_path).
Proof. apply unchanged_appends. by intros w w' r ->%read_text_world. Qed.

Lemma appends_glob_html path dir : appends_to path (glob_html dir).
Proof. apply unchanged_appends. by intros w w' r [= <- _]. Qed.

Lemma appends_write path file_path s : appends_to path (write file_path s).
Proof.
  intros w w' r t [= <- _] Ht. destruct (decide (path = file_path)) as [->|Hne].
  - exists s. by apply written_lookup_eq.
  - exists "". rewrite written_lookup_ne, app_empty_r by done. done.
Qed.

Lemma appends_bind {A B} path (m : M A) (k : A -> M B) :
  appends_to path m -> (forall a, appends_to path (k a)) -> appends_to path (bind m k).
Proof.
  intros Hm Hk w w' r t. unfold bind.
  destruct (m w) as [w1 [a|e]] eqn:Hmw; intros Hrun Ht.
  - destruct (Hm _ _ _ _ Hmw Ht) as [u1 H1].
    destruct (Hk a _ _ _ _ Hrun H1) as [u2 H2].
    exists (u1 +:+ u2). by rewrite <- app_assoc_s.
  - injection Hrun as <- _. eauto.
Qed.

Lemma appends_try_except {A} path (m : M A) (h : exn -> M A) :
  appends_to path m -> (forall e, appends_to path (h e)) ->
  appends_to path (try_except m h).
Proof.
  intros Hm Hh w w' r t. unfold try_except.
  destruct (m w) as [w1 [a|e]] eqn:Hmw; intros Hrun Ht.
  - injection Hrun as <- _. eauto.
  - destruct (Hm _ _ _ _ Hmw Ht) as [u1 H1].
    destruct (Hh e _ _ _ _ Hrun H1) as [u2 H2].
    exists (u1 +:+ u2). by rewrite <- app_assoc_s.
Qed.

Lemma appends_for_each {A S} path (l : list A) (body : A -> S -> M S) :
  (forall x s, appends_to path (body x s)) ->
  forall s, appends_to path (for_each l body s).
Proof.
  intros Hbody. induction l as [|x rest IH]; intros s; cbn.
  - apply appends_ret.
  - apply appends_bind; auto.
Qed.

Create HintDb appends.

#[global] Hint Resolve appends_ret appends_lift appends_print appends_read_text
  appends_glob_html appends_write appends_bind appends_try_except appends_for_each
  : appends.

Lemma appends_analyze_all BeautifulSoup re_search path index_content recipe_files c :
  appends_to path (analyze_all BeautifulSoup re_search index_content recipe_files c).
Proof.
  unfold analyze_all. apply appends_for_each. intros f c0.
  apply appends_bind; [|auto with appends].
  unfold analyze_recipe.
  apply appends_bind; [auto with appends|]. intros _.
  apply appends_bind.
  - unfold extract_tags_from_recipe_page, extract_tags_body.
    apply appends_try_except; [|auto with appends].
    apply appends_bind; [auto with appends|]. intros content.
    apply appends_bind; [auto with appends|]. intros soup.
    destruct (find_tags_section _ _); auto with appends.
  - intros [recipe_tags|]; [|auto 10 with appends].
    apply appends_bind; [auto with appends|]. intros current.
    destruct (decide _); auto 10 with appends.
Qed.


Lemma write_world path s w w' r : write path s w = (w', r) -> w' = written path s w.
Proof. by intros [= <- _]. Qed.

Lemma open_w_Ok path w w' :
  open_w path w = (w', Ok tt) -> fs w' !! path = Some (Text "").
Proof.
  unfold open_w. destruct (fs w !! path) as [[t|e]|]; intros [= <-]; cbn;
    by rewrite lookup_insert_eq.
Qed.

Lemma bind_write {B} path s (k : unit -> M B) w :
  bind (write path s) k w = k tt (written path s w).
Proof. reflexivity. Qed.

Lemma appends_report_files BeautifulSoup re_search path index_content recipe_files :
  appends_to path (report_files BeautifulSoup re_search index_content recipe_files).
Proof.
  unfold report_files.
  apply appends_bind; [auto with appends|]. intros ?.
  apply appends_bind; [apply appends_analyze_all|]. intros c.
  auto 20 with appends.
Qed.

(** X12: a run that gets to open the report overwrites it: whatever list
    line 57 makes of the files found, and however the run ends afterwards,
    by its last line or by an exception, the report begins with the two
    title lines, whatever it held before. *)
Theorem X12_report_is_overwritten
    (BeautifulSoup : string -> result node)
    (re_search : string -> string -> result (option Re.match_object))
    (keep : string -> bool)
    (w w' : world) (index_content : string) (r : result (list string * counters)) :
  fs w !! "index.html" = Some (Text index_content) ->
  (forall e, fs w !! report_path <> Some (Unreadable e)) ->
  main_with BeautifulSoup re_search keep w = (w', r) ->
  exists rest,
    fs w' !! report_path
      = Some (Text ("Recipe Tag Analysis Report" +:+ Py.nl +:+
                    "=========================" +:+ Py.nl +:+ Py.nl +:+ rest)).
Proof.
  intros Hidx Hrep. unfold main_with, bind at 1, read_text. rewrite Hidx.
  unfold bind at 1.
  destruct (open_w report_path w) as [wa [[]|e]] eqn:Hopen.
  - apply open_w_Ok in Hopen. cbv beta.
    do 2 rewrite bind_write. intros Hrun.
    match type of Hrun with
    | ?m _ = _ => assert (appends_to report_path m) as Happ
    end.
    { apply appends_bind; [auto with appends|]. intros html. cbn zeta.
      apply appends_bind; [apply appends_report_files|]. intros c.
      auto 20 with appends. }
    destruct (Happ _ _ _ _ Hrun
                (written_lookup_eq _ _ _ _ (written_lookup_eq _ _ _ _ Hopen)))
      as [u Hu].
    exists u. rewrite Hu, ?app_assoc_s. reflexivity.
  - unfold open_w in Hopen.
    destruct (fs w !! report_path) as [[t|e']|]; [done| |done].
    by destruct (Hrep e').
Qed.

Lemma X12_witness :
  exists rest,
    fs (fst (main_with Examples.BeautifulSoup Examples.re_search
               (fun f => negb (bool_decide (f = "index.html"))) Cases.paren_site))
      !! report_path
      = Some (Text ("Recipe Tag Analysis Report" +:+ Py.nl +:+
                    "=========================" +:+ Py.nl +:+ Py.nl +:+ rest)).
Proof.
  apply (X12_report_is_overwritten Examples.BeautifulSoup Examples.re_search
           (fun f => negb (bool_decide (f = "index.html")))
           Cases.paren_site
           (fst (main_with Examples.BeautifulSoup Examples.re_search
                   (fun f => negb (bool_decide (f = "index.html"))) Cases.paren_site))
           Examples.index_html
           (snd (main_with Examples.BeautifulSoup Examples.re_search
                   (fun f => negb (bool_decide (f = "index.html"))) Cases.paren_site))).
  - vm_compute. reflexivity.
  - intros e. vm_compute. discriminate.
  - vm_compute. reflexivity.
Defined.

Lemma print_world line w w' r : print line w = (w', r) -> w' = printed line w.
Proof. by intros [= <- _]. Qed.

(** What a file holds after some writes to it. *)
Ltac lookup_written :=
  first [ eassumption | apply written_lookup_eq; lookup_written ].

(** X13: for any list of recipe files, when lines 58-102 end normally they
    have added to the report the line with the number of files, the entries
    written by the loop and the summary, whose four numbers are the number
    of files and the final counters. *)
Theorem X13_report_ends_with_the_summary
    (BeautifulSoup : string -> result node)
    (re_search : string -> string -> result (option Re.match_object))
    (index_content before : string) (recipe_files : list string)
    (w w' : world) (c : counters) :
  fs w !! report_path = Some (Text before) ->
  report_files BeautifulSoup re_search index_content recipe_files w = (w', Ok c) ->
  exists entries,
    fs w' !! report_path
      = Some (Text (before +:+
                    "Found " +:+ pretty (length recipe_files) +:+
                    " recipe HTML files to analyze" +:+ Py.nl +:+ Py.nl +:+
                    entries +:+
                    "Summary:" +:+ Py.nl +:+
                    "- Total recipes analyzed: " +:+ pretty (length recipe_files) +:+ Py.nl +:+
                    "- Matches: " +:+ pretty (matches c) +:+ Py.nl +:+
                    "- Mismatches: " +:+ pretty (mismatches c) +:+ Py.nl +:+
                    "- Errors: " +:+ pretty (errors c) +:+ Py.nl)).
Proof.
  intros Hbefore. unfold report_files. intros H.
  apply bind_Ok in H as (we & [] & ->%write_world & H).
  apply bind_Ok in H as (wl & c1 & Hloop & H).
  apply bind_Ok in H as (w1 & [] & ->%write_world & H).
  apply bind_Ok in H as (w2 & [] & ->%write_world & H).
  apply bind_Ok in H as (w3 & [] & ->%write_world & H).
  apply bind_Ok in H as (w4 & [] & ->%write_world & H).
  apply bind_Ok in H as (w5 & [] & ->%write_world & H).
  injection H as <- <-.
  pose proof (appends_analyze_all BeautifulSoup re_search report_path) as Happ.
  unfold appends_to in Happ.
  eapply Happ in Hloop; [|lookup_written]. destruct Hloop as [entries Hentries].
  exists entries.
  etrans; [lookup_written|]. rewrite ?app_assoc_s. reflexivity.
Qed.

Lemma X13_witness :
  exists entries,
    fs (fst (report_files Examples.BeautifulSoup Examples.re_search Examples.index_html
               ["curry.html"; "c(.html"] Cases.no_index_site)) !! report_path
      = Some (Text ("old report" +:+
                    "Found " +:+ pretty (length ["curry.html"; "c(.html"]) +:+
                    " recipe HTML files to analyze" +:+ Py.nl +:+ Py.nl +:+
                    entries +:+
                    "Summary:" +:+ Py.nl +:+
                    "- Total recipes analyzed: "
                      +:+ pretty (length ["curry.html"; "c(.html"]) +:+ Py.nl +:+
                    "- Matches: " +:+ pretty (matches (Counters 0 1 1)) +:+ Py.nl +:+
                    "- Mismatches: " +:+ pretty (mismatches (Counters 0 1 1)) +:+ Py.nl +:+
                    "- Errors: " +:+ pretty (errors (Counters 0 1 1)) +:+ Py.nl)).
Proof.
  apply (X13_report_ends_with_the_summary Examples.BeautifulSoup Examples.re_search
           Examples.index_html "old report" ["curry.html"; "c(.html"]
           Cases.no_index_site
           (fst (report_files Examples.BeautifulSoup Examples.re_search Examples.index_html
                   ["curry.html"; "c(.html"] Cases.no_index_site))
           (Counters 0 1 1)).
  - vm_compute. reflexivity.
  - vm_compute. reflexivity.
Defined.

(** * Further properties: which section is read *)

(** X14: the loop over the marker strings skips the markers whose parent
    has no later sibling div and stops at the first one that has: its div
    is the tags section, whatever markers come after it. *)
Theorem X14_first_marker_with_a_div_is_the_section
    (soup : node) (before after : list element) (e : element) (tags_section : node) :
  (forall x, x ∈ before -> find_next_sibling soup (find_parent x) "div" = None) ->
  find_next_sibling soup (find_parent e) "div" = Some tags_section ->
  find_tags_section soup (before ++ e :: after) = Some tags_section.
Proof.
  intros Hbefore He. induction before as [|x before IH]; cbn.
  - by rewrite He.
  - rewrite (Hbefore x) by apply list_elem_of_here.
    apply IH. intros y Hy. by apply Hbefore, list_elem_of_further.
Qed.

Lemma X14_witness :
  find_tags_section Cases.two_markers_soup ([[0; 0; 0]] ++ [1; 0] :: [])
    = Some (Tag "div" None
              [ Tag "span" (Some ["inline-flex"]) [ NavigableString Plain "Vegan" ] ]).
Proof.
  apply (X14_first_marker_with_a_div_is_the_section Cases.two_markers_soup
           [[0; 0; 0]] [] [1; 0]).
  - intros x Hx. apply list_elem_of_singleton in Hx as ->. vm_compute. reflexivity.
  - vm_compute. reflexivity.
Defined.

Lemma two_markers_found :
  markers Cases.two_markers_soup = [[0; 0; 0]; [1; 0]].
Proof. vm_compute. reflexivity. Qed.
